(** * The documentation content extractor of pkg/typegen/scraper.go

  A shallow embedding of [ScrapeDocumentation] and of the helpers it is
  built from ([extractRelevantSection], [isFunctionContainer],
  [extractFunctionSection], [isHeadingElement], [getHeadingLevel],
  [isContentElement]), together with the small part of the Go standard
  library, of goquery and of colly that these functions call.

  Go strings are byte sequences and are modelled by [string]; a
  [strings.Builder] is the string written so far; a parsed page is a
  rose tree of nodes; a goquery selection of one element is that
  element together with the siblings that follow it in its parent. *)

From Stdlib Require Import String Ascii List ZArith Bool Lia.
Import ListNotations.

Open Scope list_scope.
Open Scope string_scope.

(** ** Go's [strings] package, as far as the scraper uses it *)

Module GoStrings.

(** Characters that have no literal in a Rocq string. *)
Definition LF : string := String (ascii_of_nat 10) EmptyString.
Definition DQ : string := String (ascii_of_nat 34) EmptyString.

(** [strings.Contains(s, substr)]. *)
Fixpoint Contains (s substr : string) : bool :=
  if prefix substr s then true
  else match s with
       | EmptyString => false
       | String _ s' => Contains s' substr
       end.

(** The ASCII white space of [unicode.IsSpace]: tab, line feed,
    vertical tab, form feed, carriage return and space.  Texts are taken
    to be ASCII; the white space Go also knows beyond ASCII (U+0085,
    U+00A0, ...) is left where it is. *)
Definition isSpace (c : ascii) : bool :=
  let n := nat_of_ascii c in
  (((9 <=? n) && (n <=? 13)) || (n =? 32))%nat.

Fixpoint TrimLeft (s : string) : string :=
  match s with
  | EmptyString => EmptyString
  | String c s' => if isSpace c then TrimLeft s' else s
  end.

Fixpoint TrimRight (s : string) : string :=
  match s with
  | EmptyString => EmptyString
  | String c s' =>
      match TrimRight s' with
      | EmptyString => if isSpace c then EmptyString else String c EmptyString
      | r => String c r
      end
  end.

(** [strings.TrimSpace(s)]. *)
Definition TrimSpace (s : string) : string := TrimRight (TrimLeft s).

Definition lowerAscii (c : ascii) : ascii :=
  let n := nat_of_ascii c in
  if ((65 <=? n) && (n <=? 90))%nat then ascii_of_nat (n + 32) else c.

(** [strings.ToLower(s)], on ASCII letters. *)
Fixpoint ToLower (s : string) : string :=
  match s with
  | EmptyString => EmptyString
  | String c s' => String (lowerAscii c) (ToLower s')
  end.

(** The strings of a list written one after the other. *)
Fixpoint concatAll (l : list string) : string :=
  match l with
  | [] => EmptyString
  | s :: l' => s ++ concatAll l'
  end.

(** The words of [s], split at the characters [sep] accepts. *)
Fixpoint fieldsAux (sep : ascii -> bool) (cur : string) (s : string)
  : list string :=
  match s with
  | EmptyString => match cur with EmptyString => [] | _ => [cur] end
  | String c s' =>
      if sep c
      then match cur with
           | EmptyString => fieldsAux sep EmptyString s'
           | _ => cur :: fieldsAux sep EmptyString s'
           end
      else fieldsAux sep (cur ++ String c EmptyString) s'
  end.

Definition Fields (sep : ascii -> bool) (s : string) : list string :=
  fieldsAux sep EmptyString s.

(** [sub] occurs in [s]: what [Contains] decides. *)
Definition Infix (sub s : string) : Prop :=
  exists a b, s = a ++ sub ++ b.

(** [strings.Builder]: the text written so far. *)
Definition Builder := string.
Definition WriteString (b : Builder) (s : string) : Builder := b ++ s.

End GoStrings.

(** ** The parsed page: [html.Node] trees and goquery selections *)

Module Dom.
Import GoStrings.

(** A node of [golang.org/x/net/html]: text, comment or element.  The
    children of an element are kept in document order. *)
#[local] Unset Elimination Schemes.
Inductive Node : Type :=
| TextNode (data : string)
| CommentNode (data : string)
| ElementNode (tag : string) (attr : list (string * string)) (children : list Node).
#[local] Set Elimination Schemes.

Definition isElement (n : Node) : bool :=
  match n with ElementNode _ _ _ => true | _ => false end.

Definition childrenOf (n : Node) : list Node :=
  match n with ElementNode _ _ cs => cs | _ => [] end.

(** Induction over a tree with the hypothesis for every child. *)
Section NodeInduction.
Variable P : Node -> Prop.
Hypothesis Htext : forall d, P (TextNode d).
Hypothesis Hcomment : forall d, P (CommentNode d).
Hypothesis Helement :
  forall tag attr cs, Forall P cs -> P (ElementNode tag attr cs).

Fixpoint Node_rose_ind (n : Node) : P n :=
  match n with
  | TextNode d => Htext d
  | CommentNode d => Hcomment d
  | ElementNode tag attr cs =>
      Helement tag attr cs
        ((fix all (l : list Node) : Forall P l :=
            match l with
            | [] => Forall_nil P
            | c :: r => Forall_cons c (Node_rose_ind c) (all r)
            end) cs)
  end.
End NodeInduction.

(** A document: the children of the document node. *)
Definition Document := list Node.

(** A goquery selection holding one element: the element and the
    siblings (of any kind) that follow it under its parent. *)
Record Selection : Type := mkSelection
  { selNode : Node; selFollowing : list Node }.

(** *** Rendering, after [html.Render] *)

Definition escapeChar (c : ascii) : string :=
  match nat_of_ascii c with
  | 38 => "&amp;"
  | 39 => "&#39;"
  | 60 => "&lt;"
  | 62 => "&gt;"
  | 34 => "&#34;"
  | 13 => "&#13;"
  | _ => String c EmptyString
  end.

Fixpoint escape (s : string) : string :=
  match s with
  | EmptyString => EmptyString
  | String c s' => escapeChar c ++ escape s'
  end.

Definition memStr (x : string) (l : list string) : bool :=
  existsb (String.eqb x) l.

Definition voidElements : list string :=
  ["area"; "base"; "br"; "col"; "embed"; "hr"; "img"; "input"; "keygen";
   "link"; "meta"; "param"; "source"; "track"; "wbr"].

Definition rawTextElements : list string :=
  ["iframe"; "noembed"; "noframes"; "noscript"; "plaintext"; "script";
   "style"; "xmp"].

Definition renderAttrs (attr : list (string * string)) : string :=
  concatAll
    (map (fun kv => " " ++ fst kv ++ "=" ++ DQ ++ escape (snd kv) ++ DQ) attr).

Definition startsWithLF (cs : list Node) : bool :=
  match cs with
  | TextNode d :: _ => prefix LF d
  | _ => false
  end.

(** The page is a parsed one: a void element has no children, and
    rendering does not fail. *)
Fixpoint render (n : Node) : string :=
  match n with
  | TextNode d => escape d
  | CommentNode d => "<!--" ++ d ++ "-->"
  | ElementNode tag attr cs =>
      "<" ++ tag ++ renderAttrs attr ++
      (if memStr tag voidElements then "/>"
       else
         ">" ++
         (if startsWithLF cs && memStr tag ["pre"; "listing"; "textarea"]
          then LF else EmptyString) ++
         (if memStr tag rawTextElements
          then concatAll
                 (map (fun c => match c with
                                | TextNode d => d
                                | _ => render c
                                end) cs)
          else concatAll (map render cs)) ++
         "</" ++ tag ++ ">")
  end.

(** *** goquery *)

Fixpoint nodeText (n : Node) : string :=
  match n with
  | TextNode d => d
  | CommentNode _ => EmptyString
  | ElementNode _ _ cs => concatAll (map nodeText cs)
  end.

(** [s.Text()]. *)
Definition Text (s : Selection) : string := nodeText (selNode s).

(** [s.Html()]: the rendering of the children of the element.  On a
    parsed page its error is nil, and the model has none. *)
Definition Html (s : Selection) : string :=
  concatAll (map render (childrenOf (selNode s))).

(** [goquery.NodeName(s)]. *)
Definition NodeName (s : Selection) : string :=
  match selNode s with
  | ElementNode tag _ _ => tag
  | TextNode _ => "#text"
  | CommentNode _ => "#comment"
  end.

Fixpoint lookupAttr (attr : list (string * string)) (key : string) : string :=
  match attr with
  | [] => EmptyString
  | (k, v) :: rest => if k =? key then v else lookupAttr rest key
  end.

(** [s.Attr(key)], the value alone: the scraper drops the flag that
    tells a missing attribute from an empty one. *)
Definition Attr (s : Selection) (key : string) : string :=
  match selNode s with
  | ElementNode _ attr _ => lookupAttr attr key
  | _ => EmptyString
  end.

(** The element children of a list of siblings, each with the siblings
    that follow it, and below each its own descendants: document order. *)
Fixpoint descendants (n : Node) : list Selection :=
  match n with
  | ElementNode _ _ cs =>
      (fix walk (l : list Node) : list Selection :=
         match l with
         | [] => []
         | c :: rest =>
             ((if isElement c then [mkSelection c rest] else [])
                ++ descendants c ++ walk rest)%list
         end) cs
  | _ => []
  end.

Fixpoint elementsOf (l : list Node) : list Selection :=
  match l with
  | [] => []
  | c :: rest =>
      ((if isElement c then [mkSelection c rest] else [])
         ++ descendants c ++ elementsOf rest)%list
  end.

(** [s.Next()]: the next sibling that is an element, if any. *)
Fixpoint nextElement (l : list Node) : option Selection :=
  match l with
  | [] => None
  | n :: rest => if isElement n then Some (mkSelection n rest) else nextElement rest
  end.

Definition Next (s : Selection) : option Selection :=
  nextElement (selFollowing s).

(** *** Selectors, after cascadia *)

Inductive simpleSelector : Type :=
| ByTag (tag : string)
| ByClass (class : string)
| ById (id : string)
| ByAttr (key val : string)
| Universal.

(** A comma-separated group. *)
Definition selector := list simpleSelector.

(** The white space between the names of a [class] attribute: space,
    tab, carriage return, line feed and form feed. *)
Definition isClassSpace (c : ascii) : bool :=
  let n := nat_of_ascii c in
  ((n =? 32) || (n =? 9) || (n =? 13) || (n =? 10) || (n =? 12))%nat.

Definition matchAttribute (attr : list (string * string)) (key : string)
           (f : string -> bool) : bool :=
  existsb (fun kv => (fst kv =? key) && f (snd kv)) attr.

Definition matchSimple (m : simpleSelector) (n : Node) : bool :=
  match n with
  | ElementNode tag attr _ =>
      match m with
      | ByTag t => tag =? t
      | ByClass c => matchAttribute attr "class" (fun v => memStr c (Fields isClassSpace v))
      | ById i => matchAttribute attr "id" (fun v => v =? i)
      | ByAttr k x => matchAttribute attr k (fun v => v =? x)
      | Universal => true
      end
  | _ => false
  end.

Definition matches (sel : selector) (n : Node) : bool :=
  existsb (fun m => matchSimple m n) sel.

(** [s.Find(sel)]: the descendants of the element that match. *)
Definition Find (s : Selection) (sel : selector) : list Selection :=
  filter (fun d => matches sel (selNode d)) (descendants (selNode s)).

(** [doc.Find(sel)]. *)
Definition docFind (doc : Document) (sel : selector) : list Selection :=
  filter (fun d => matches sel (selNode d)) (elementsOf doc).

End Dom.

(** ** colly: collectors and their HTML callbacks *)

Module Colly.
Import GoStrings Dom.

(** A callback registered with [OnHTML].  The element handed to it is the
    matched element: [e.Text], [e.Name] and [e.DOM] are [Text], [NodeName]
    and the selection itself. *)
Record htmlCallback : Type := mkCallback
  { Selector : selector; Function : Selection -> Builder -> Builder }.

(** What a collector does with a fetched page: the callbacks run in the
    order they were registered, each on every element its selector
    matches, in document order.  All of them write to the one builder. *)
Definition handleOnHTML (doc : Document) (htmlCallbacks : list htmlCallback)
           (content : Builder) : Builder :=
  fold_left
    (fun content cc =>
       fold_left (fun content e => Function cc e content)
                 (docFind doc (Selector cc)) content)
    htmlCallbacks content.

(** Two callbacks with the same selector whose functions agree on every
    element and builder. *)
Definition sameCallback (c1 c2 : htmlCallback) : Prop :=
  Selector c1 = Selector c2 /\
  forall e content, Function c1 e content = Function c2 e content.

(** A callback that only appends to the builder. *)
Definition appends (f : Selection -> Builder -> Builder) : Prop :=
  forall e content, f e content = content ++ f e EmptyString.

(** The two collectors of one call. *)
Inductive pass : Type := Targeted | Fallback.

(** The world outside: whether [url.ParseRequestURI] accepts a URL, and
    the page a collector's [Visit] of it ends with ([None] when the visit
    fails).  A response that is not HTML runs no callback and is the
    empty page. *)
Record Web : Type := mkWeb
  { ParseRequestURI : string -> bool;
    Visit : pass -> string -> option Document }.

End Colly.

(** ** pkg/typegen/scraper.go *)

Module Scraper.
Import GoStrings Dom Colly.

(** [isHeadingElement]: the element is one of h1 ... h6. *)
Definition isHeadingElement (s : Selection) : bool :=
  let nodeName := NodeName s in
  (nodeName =? "h1") || (nodeName =? "h2") || (nodeName =? "h3") ||
  (nodeName =? "h4") || (nodeName =? "h5") || (nodeName =? "h6").

(** [getHeadingLevel]: 1 for h1, ..., 6 for h6, 0 for anything else. *)
Definition getHeadingLevel (s : Selection) : Z :=
  let nodeName := NodeName s in
  if nodeName =? "h1" then 1
  else if nodeName =? "h2" then 2
  else if nodeName =? "h3" then 3
  else if nodeName =? "h4" then 4
  else if nodeName =? "h5" then 5
  else if nodeName =? "h6" then 6
  else 0.

(** [isContentElement]: the tags the second pass accepts. *)
Definition contentElements : list string :=
  ["div"; "section"; "article"; "main"; "p"; "pre"; "code";
   "table"; "ul"; "ol"; "dl"; "blockquote"; "figure"; "details";
   "summary"; "aside"; "header"; "footer"; "nav"].

Definition isContentElement (name : string) : bool :=
  existsb (fun elem => name =? elem) contentElements.

Definition headingSelector : selector :=
  [ByTag "h1"; ByTag "h2"; ByTag "h3"; ByTag "h4"; ByTag "h5"; ByTag "h6"].

Definition codeSelector : selector := [ByTag "pre"; ByTag "code"].

(** The test of one attribute value in [isFunctionContainer]. *)
Definition attrNamesFunction (attr funcName : string) : bool :=
  (attr =? funcName) ||
  (attr =? funcName ++ "-method") ||
  (attr =? funcName ++ "-function") ||
  (attr =? "method-" ++ funcName) ||
  (attr =? "function-" ++ funcName).

Definition relevantAttrs (s : Selection) : list string :=
  let id := Attr s "id" in
  let name := Attr s "name" in
  let dataFunction := Attr s "data-function" in
  let dataMethod := Attr s "data-method" in
  [id; name; dataFunction; dataMethod;
   ToLower id; ToLower name; ToLower dataFunction; ToLower dataMethod].

(** [isFunctionContainer].  The [Each] over the headings sets the flag
    [foundHeading] and is a fold over them. *)
Definition isFunctionContainer (s : Selection) (funcName : string) : bool :=
  if negb (Contains (Text s) funcName) then false
  else if isHeadingElement s then true
  else if existsb (fun attr => attrNamesFunction attr funcName) (relevantAttrs s)
  then true
  else
    let nodeName := NodeName s in
    if (nodeName =? "section") || (nodeName =? "div") || (nodeName =? "article")
    then
      fold_left
        (fun foundHeading heading =>
           if TrimSpace (Text heading) =? funcName then true else foundHeading)
        (Find s headingSelector) false
    else false.

(** The loop of [extractFunctionSection] over the siblings that follow a
    heading: [rest] is what follows the element looked at last, so that
    the next element of [rest] is [next.Next()]. *)
Fixpoint walkSiblings (headingLevel : Z) (rest : list Node) (content : Builder)
  : Builder :=
  match rest with
  | [] => content
  | n :: rest' =>
      if isElement n then
        let next := mkSelection n rest' in
        if isHeadingElement next && (getHeadingLevel next <=? headingLevel)%Z
        then content
        else walkSiblings headingLevel rest'
               (WriteString (WriteString content (Html next)) LF)
      else walkSiblings headingLevel rest' content
  end.

Section Extraction.
(** The constant [maxDepth] of the source; it is 3, see below. *)
Variable maxDepth : Z.

(** [extractFunctionSection]. *)
Definition extractFunctionSection (s : Selection) (funcName : string)
           (depth : Z) : string :=
  if (depth >? maxDepth)%Z then EmptyString
  else
    let content : Builder := EmptyString in
    if isHeadingElement s && Contains (Text s) funcName then
      let headingLevel := getHeadingLevel s in
      let headingHTML := Html s in
      let content :=
        WriteString content
          ("<" ++ NodeName s ++ ">" ++ headingHTML ++ "</" ++ NodeName s ++ ">" ++ LF) in
      walkSiblings headingLevel (selFollowing s) content
    else
      let content :=
        fold_left
          (fun content code =>
             if Contains (Text code) funcName
             then WriteString (WriteString content (Html code)) LF
             else content)
          (Find s codeSelector) content in
      let content :=
        if (NodeName s =? "table") || (NodeName s =? "ul") || (NodeName s =? "ol")
        then
          if Contains (Text s) funcName
          then WriteString (WriteString content (Html s)) LF
          else content
        else content in
      content.

(** [extractRelevantSection]. *)
Definition extractRelevantSection (s : Selection) (funcName : string) : string :=
  let content : Builder := EmptyString in
  let inChildren :=
    fold_left
      (fun content child =>
         if isFunctionContainer child funcName then
           let section := extractFunctionSection child funcName 0 in
           if negb (section =? EmptyString)
           then WriteString (WriteString content section) (LF ++ LF)
           else content
         else content)
      (Find s [Universal]) content in
  if isFunctionContainer s funcName then
    let functionSection := extractFunctionSection s funcName 0 in
    if negb (functionSection =? EmptyString) then functionSection
    else Html s
  else inChildren.

(** The selectors of the first pass: the containers of documentation
    sites, and before them, when a function is asked for, the elements
    named after it. *)
Definition genericSelectors : list selector :=
  [[ByTag "main"]; [ByTag "article"]; [ByClass "documentation"]; [ByClass "docs"];
   [ByClass "content"]; [ByClass "main-content"]; [ByClass "api-docs"];
   [ByClass "api-reference"]; [ById "documentation"]; [ByClass "markdown-body"];
   [ByAttr "role" "main"]; [ByClass "api-content"]].

(** An attribute selector written with the symbol between quotes is the
    test that the attribute equals the symbol, for a symbol that has no
    quote and no backslash in it. *)
Definition functionSelectors (funcName : string) : list selector :=
  [[ByAttr "id" funcName];
   [ByAttr "id" (funcName ++ "-method")];
   [ByAttr "id" (funcName ++ "-function")];
   [ByAttr "id" ("method-" ++ funcName)];
   [ByAttr "id" ("function-" ++ funcName)];
   [ByAttr "name" funcName];
   [ByAttr "data-function" funcName];
   [ByAttr "data-method" funcName]].

Definition selectors (funcName : string) : list selector :=
  if negb (funcName =? EmptyString)
  then (functionSelectors funcName ++ genericSelectors)%list
  else genericSelectors.

(** The callback on [title]. *)
Definition onTitle (e : Selection) (content : Builder) : Builder :=
  WriteString content ("# " ++ Text e ++ LF ++ LF).

(** The callback on each selector of [selectors]. *)
Definition onContainer (funcName : string) (e : Selection) (content : Builder)
  : Builder :=
  if negb (funcName =? EmptyString) then
    if Contains (Text e) funcName then
      let extractedText := extractRelevantSection e funcName in
      if negb (extractedText =? EmptyString)
      then WriteString (WriteString content extractedText) (LF ++ LF)
      else content
    else content
  else
    let text := TrimSpace (Text e) in
    let content :=
      if negb (text =? EmptyString)
      then WriteString (WriteString content text) (LF ++ LF)
      else content in
    fold_left
      (fun content s => WriteString (WriteString (WriteString content LF) (Html s)) LF)
      (Find e [ByTag "pre"; ByTag "code"; ByTag "table"]) content.

(** The callback on [pre, code]. *)
Definition onCode (funcName : string) (e : Selection) (content : Builder)
  : Builder :=
  if negb (funcName =? EmptyString) && negb (Contains (Text e) funcName)
  then content
  else
    let text := Text e in
    if negb (text =? EmptyString)
    then WriteString (WriteString (WriteString content (LF ++ "```" ++ LF)) text)
                     (LF ++ "```" ++ LF)
    else content.

(** The callback on [*] of the second pass. *)
Definition onAny (funcName : string) (e : Selection) (content : Builder)
  : Builder :=
  if Contains (Text e) funcName then
    if isContentElement (NodeName e) then
      let extractedText := extractRelevantSection e funcName in
      if negb (extractedText =? EmptyString)
      then WriteString (WriteString content extractedText) (LF ++ LF)
      else content
    else content
  else content.

Definition firstPassCallbacks (funcName : string) : list htmlCallback :=
  (mkCallback [ByTag "title"] onTitle
     :: map (fun selector => mkCallback selector (onContainer funcName))
            (selectors funcName)
     ++ [mkCallback codeSelector (onCode funcName)])%list.

Definition secondPassCallbacks (funcName : string) : list htmlCallback :=
  [mkCallback [Universal] (onAny funcName)].

(** The errors [ScrapeDocumentation] returns, in the order of the source:
    invalid URL, error visiting URL, error in second visit to URL,
    function or method not found in the documentation, no content
    extracted from the documentation URL. *)
Inductive scrapeError : Type :=
| InvalidURL
| VisitError
| SecondVisitError
| FunctionNotFound (funcName : string)
| NoContentExtracted.

Inductive scrapeResult : Type :=
| Ok (content : string)
| Err (e : scrapeError).

(** The end of [ScrapeDocumentation], from [if result == ...] on. *)
Definition finish (funcName result : string) : scrapeResult :=
  if result =? EmptyString then
    if negb (funcName =? EmptyString) then Err (FunctionNotFound funcName)
    else Err NoContentExtracted
  else Ok result.

(** The condition under which the second pass is made. *)
Definition needsSecondPass (funcName result : string) : bool :=
  negb (funcName =? EmptyString) && negb (Contains result funcName).

(** The text the first collector leaves in the builder. *)
Definition firstPass (doc : Document) (funcName : string) : string :=
  handleOnHTML doc (firstPassCallbacks funcName) EmptyString.

(** The text the second collector leaves in the builder, which was reset. *)
Definition secondPass (doc : Document) (funcName : string) : string :=
  handleOnHTML doc (secondPassCallbacks funcName) EmptyString.

(** [ScrapeDocumentation], with the collectors it visited, in order.
    Logging ([verbose]) is left out. *)
Definition ScrapeDocumentation (web : Web) (docURL funcName : string)
  : list pass * scrapeResult :=
  if negb (ParseRequestURI web docURL) then ([], Err InvalidURL)
  else
    match Visit web Targeted docURL with
    | None => ([Targeted], Err VisitError)
    | Some doc =>
        let result := firstPass doc funcName in
        if needsSecondPass funcName result then
          match Visit web Fallback docURL with
          | None => ([Targeted; Fallback], Err SecondVisitError)
          | Some doc2 =>
              let result := secondPass doc2 funcName in
              ([Targeted; Fallback], finish funcName result)
          end
        else ([Targeted], finish funcName result)
    end.

End Extraction.

(** [const maxDepth = 3]. *)
Definition maxDepth : Z := 3.

End Scraper.

(** ** pkg/typegen/cli.go and pkg/typegen/generator.go *)

Module TypeGen.
Import GoStrings Dom.

(** A [case] of a [switch] over strings: the value is one of the listed. *)
Definition oneOf (x : string) (l : list string) : bool := memStr x l.

(** [normalizeLanguage] of cli.go. *)
Definition normalizeLanguage (lang : string) : string :=
  let lang := ToLower lang in
  if oneOf lang ["ts"; "typescript"] then "typescript"
  else if oneOf lang ["go"; "golang"] then "go"
  else if oneOf lang ["py"; "python"] then "python"
  else if oneOf lang ["rs"; "rust"] then "rust"
  else if oneOf lang ["js"; "javascript"] then "javascript"
  else if oneOf lang ["cs"; "csharp"; "c#"] then "csharp"
  else if oneOf lang ["kt"; "kotlin"] then "kotlin"
  else lang.

(** [getFileExtension] of cli.go. *)
Definition getFileExtension (language : string) : string :=
  if oneOf language ["typescript"; "ts"] then ".ts"
  else if oneOf language ["javascript"; "js"] then ".js"
  else if oneOf language ["go"; "golang"] then ".go"
  else if oneOf language ["python"; "py"] then ".py"
  else if oneOf language ["rust"; "rs"] then ".rs"
  else if oneOf language ["java"] then ".java"
  else if oneOf language ["csharp"; "cs"] then ".cs"
  else if oneOf language ["swift"] then ".swift"
  else if oneOf language ["kotlin"; "kt"] then ".kt"
  else ".txt".

(** [getLanguageName] of generator.go. *)
Definition getLanguageName (code : string) : string :=
  if oneOf code ["typescript"; "ts"] then "TypeScript"
  else if oneOf code ["go"; "golang"] then "Go"
  else if oneOf code ["python"; "py"] then "Python"
  else if oneOf code ["rust"; "rs"] then "Rust"
  else if oneOf code ["java"] then "Java"
  else if oneOf code ["csharp"; "cs"] then "C#"
  else if oneOf code ["swift"] then "Swift"
  else if oneOf code ["kotlin"; "kt"] then "Kotlin"
  else code.

(** [getLanguageMarker] of generator.go. *)
Definition getLanguageMarker (code : string) : string :=
  if oneOf code ["typescript"; "ts"] then "typescript|ts"
  else if oneOf code ["go"; "golang"] then "go|golang"
  else if oneOf code ["python"; "py"] then "python|py"
  else if oneOf code ["rust"; "rs"] then "rust|rs"
  else if oneOf code ["java"] then "java"
  else if oneOf code ["csharp"; "cs"] then "csharp|cs"
  else if oneOf code ["swift"] then "swift"
  else if oneOf code ["kotlin"; "kt"] then "kotlin|kt"
  else code.

(** The instructions [buildPrompt] adds for a language it knows. *)
Definition languageInstructions (language : string) : string :=
  if oneOf language ["typescript"; "ts"] then
    "Include proper TypeScript interfaces, types, enums, generics, and all necessary types including parameters, request/response objects, and return types. Use strict typing (avoid 'any' when possible). Add JSDoc comments for all types. "
  else if oneOf language ["go"; "golang"] then
    "Create Go structs with proper field types and appropriate struct tags (json, xml, etc. as needed). Include interfaces, type aliases, and constants where appropriate. Add godoc style comments. "
  else if oneOf language ["python"; "py"] then
    "Use modern Python type annotations (typing module). Include type hints for function parameters, return types, class attributes, etc. Use dataclasses or Pydantic models where appropriate. Add docstrings for all types. "
  else if oneOf language ["rust"; "rs"] then
    "Create Rust structs and enums with proper field types. Include trait implementations, derive macros, and proper documentation comments. Use appropriate Serde annotations for serialization if needed. "
  else if oneOf language ["java"] then
    "Create Java classes with proper field types, getters, setters and constructors. Include interfaces, enums, and generics where appropriate. Add Javadoc comments. Use appropriate annotations (e.g., Jackson annotations for JSON processing). "
  else if oneOf language ["csharp"; "cs"] then
    "Create C# classes with proper field types, properties, and constructors. Include interfaces, enums, and generics where appropriate. Add XML documentation comments. Use appropriate attributes (e.g., JsonProperty for JSON processing). "
  else if oneOf language ["swift"] then
    "Create Swift structs/classes with proper field types and codable conformance where appropriate. Include protocols, enums, and optionals where needed. Add documentation comments. "
  else if oneOf language ["kotlin"; "kt"] then
    "Create Kotlin data classes with proper field types. Include interfaces, sealed classes, and nullable types where appropriate. Add KDoc comments. Use appropriate annotations (e.g., Serializable, JsonProperty). "
  else EmptyString.

(** [buildPrompt] of generator.go: the writes to the builder [sb], in
    order. *)
Definition buildPrompt (docContent language funcName : string) : string :=
  let sb : Builder := EmptyString in
  let sb := WriteString sb "Based on the following API documentation, " in
  let sb :=
    if negb (funcName =? EmptyString)
    then WriteString sb
           ("generate accurate and complete type definitions for the function or method named '"
              ++ funcName ++ "' ")
    else WriteString sb "generate accurate and complete type definitions " in
  let sb := WriteString sb ("in " ++ getLanguageName language ++ ". ") in
  let sb := WriteString sb (languageInstructions language) in
  let sb :=
    WriteString sb
      "Ensure all types accurately represent the API's data structures, parameter types, and return values. Do not include implementation logic, only type definitions. " in
  let sb :=
    if negb (funcName =? EmptyString)
    then WriteString sb
           ("Focus specifically on the '" ++ funcName
              ++ "' function/method and its associated types. ")
    else sb in
  let sb := WriteString sb "Include all necessary imports/includes at the top of the file. " in
  let sb := WriteString sb "Output only code, no additional explanation. " in
  let sb := WriteString sb (LF ++ LF ++ "API DOCUMENTATION:" ++ LF) in
  let sb := WriteString sb docContent in
  sb.

(** Go's [regexp], as far as [extractOutput] uses it: a compiled
    expression finds all matches with their groups, and replaces all
    matches; a pattern that does not compile has no expression, and
    [MustCompile] panics. *)
Record Regexp : Type := mkRegexp
  { FindAllStringSubmatch : string -> list (list string);
    ReplaceAllString : string -> string -> string }.

Section Output.
(** [regexp.MustCompile]; [None] is the panic. *)
Variable MustCompile : string -> option Regexp.

(** The body of the loop over the matches. *)
Definition writeMatch (result : Builder) (match_ : list string) : Builder :=
  match match_ with
  | _ :: m1 :: _ =>
      let code := TrimSpace m1 in
      WriteString (WriteString result code) (LF ++ LF)
  | _ => result
  end.

(** [extractOutput] of generator.go; [None] when a [MustCompile] panics. *)
Definition extractOutput (text language : string) : option string :=
  let result : Builder := EmptyString in
  let codeBlockPattern :=
    "```(?:" ++ getLanguageMarker language ++ ")?([\s\S]*?)```" in
  match MustCompile codeBlockPattern with
  | None => None
  | Some re =>
      let matches := FindAllStringSubmatch re text in
      match matches with
      | _ :: _ =>
          let result := fold_left writeMatch matches result in
          Some (TrimSpace result)
      | [] =>
          match MustCompile "(?m)^#+ .*$" with
          | None => None
          | Some headers =>
              let text := ReplaceAllString headers text EmptyString in
              match MustCompile "(?m)^[*-] " with
              | None => None
              | Some bullets =>
                  let text := ReplaceAllString bullets text EmptyString in
                  let result := WriteString result text in
                  Some (TrimSpace result)
              end
          end
      end
  end.
End Output.

End TypeGen.

(** ** pkg/common: the environment *)

Module Common.
Import GoStrings Dom.

(** The environment of the process, as [os.Getenv] shows it: the value
    of each variable, empty when it is not set. *)
Definition Env := string -> string.

Definition Getenv (env : Env) (key : string) : string := env key.

Definition Setenv (env : Env) (key value : string) : Env :=
  fun k => if k =? key then value else env k.

(** [strings.ReplaceAll(s, old, new)] for an [old] that is not empty:
    the occurrences of [old] are replaced from the left, without overlap.
    [skip] counts the characters of a replaced occurrence still to pass. *)
Fixpoint replaceFrom (old new : string) (skip : nat) (s : string) : string :=
  match s with
  | EmptyString => EmptyString
  | String c s' =>
      match skip with
      | S k => replaceFrom old new k s'
      | O =>
          if prefix old s
          then new ++ replaceFrom old new (String.length old - 1) s'
          else String c (replaceFrom old new 0 s')
      end
  end.

Definition ReplaceAll (s old new : string) : string := replaceFrom old new 0 s.

Definition CR : string := String (ascii_of_nat 13) EmptyString.

Definition keysToClean : list string :=
  ["GEMINI_API_KEY"; "DEFAULT_LANG"; "DEFAULT_MODEL"; "DEFAULT_TEMPERATURE";
   "DEFAULT_TIMEOUT"; "DEFAULT_VERBOSE"].

(** [CleanWindowsLineEndings]: the loop over the keys, on the
    environment. *)
Definition CleanWindowsLineEndings (env : Env) : Env :=
  fold_left
    (fun env key =>
       let value := Getenv env key in
       if negb (value =? EmptyString) then
         let cleanValue := ReplaceAll value CR EmptyString in
         if negb (cleanValue =? value) then Setenv env key cleanValue else env
       else env)
    keysToClean env.

(** [GetEnvOrDefault]. *)
Definition GetEnvOrDefault (env : Env) (key defaultValue : string) : string :=
  let value := Getenv env key in
  if value =? EmptyString then defaultValue else value.

End Common.

(** ** The vocabulary of the specification *)

Module Outline.
Import GoStrings Dom Colly Scraper.

(** The element siblings that follow a list position, each with what
    follows it: goquery's [NextAll]. *)
Fixpoint followingElements (rest : list Node) : list Selection :=
  match rest with
  | [] => []
  | n :: rest' =>
      if isElement n then mkSelection n rest' :: followingElements rest'
      else followingElements rest'
  end.

Definition NextAll (s : Selection) : list Selection :=
  followingElements (selFollowing s).

(** The level of a heading in the outline of a document, read off its
    tag: the tag is the letter h and one digit from 1 to 6, and the level
    is that digit.  No other tag has a level. *)
Definition outlineLevel (tag : string) : option Z :=
  match tag with
  | String h (String d EmptyString) =>
      let n := nat_of_ascii d in
      if Ascii.eqb h (ascii_of_nat 104) && (49 <=? n)%nat && (n <=? 54)%nat
      then Some (Z.of_nat (n - 48))
      else None
  | _ => None
  end.

(** [x] is a heading at the level of the heading [s] or above it in the
    outline: the section that [s] opens ends before [x]. *)
Definition endsSection (s x : Selection) : bool :=
  match outlineLevel (NodeName s), outlineLevel (NodeName x) with
  | Some level, Some next => (next <=? level)%Z
  | _, _ => false
  end.

(** The attribute value [attr] is the symbol or one of its decorated
    forms. *)
Definition namesFunction (attr funcName : string) : Prop :=
  attr = funcName \/
  attr = funcName ++ "-method" \/
  attr = funcName ++ "-function" \/
  attr = "method-" ++ funcName \/
  attr = "function-" ++ funcName.

(** The attributes the container heuristic reads. *)
Definition namingAttributes : list string :=
  ["id"; "name"; "data-function"; "data-method"].

(** The lines the first pass writes for the title elements of a page. *)
Definition titleLines (doc : Document) : string :=
  concatAll (map (fun t => "# " ++ Text t ++ LF ++ LF) (docFind doc [ByTag "title"])).

(** A code block as the harvester writes it. *)
Definition fenced (text : string) : string :=
  LF ++ "```" ++ LF ++ text ++ LF ++ "```" ++ LF.

(** The elements the harvester keeps: [pre] and [code] elements with a
    text, which mentions the symbol when there is one. *)
Definition harvestable (funcName : string) (e : Selection) : bool :=
  ((funcName =? EmptyString) || Contains (Text e) funcName)
  && negb (Text e =? EmptyString).

Definition harvest (doc : Document) (funcName : string) : string :=
  concatAll
    (map (fun e => fenced (Text e))
         (filter (harvestable funcName) (docFind doc codeSelector))).



(** The text the container callbacks of the first pass write. *)
Definition containerText (maxDepth : Z) (doc : Document) (funcName : string)
  : string :=
  handleOnHTML doc
    (map (fun selector => mkCallback selector (onContainer maxDepth funcName))
         (selectors funcName))
    EmptyString.

End Outline.

(** ** What the passes write, in closed form *)

Module Shapes.
Import GoStrings Dom Colly Scraper.

(** A descendant from which [extractRelevantSection] takes a section. *)
Definition yields (maxDepth : Z) (funcName : string) (c : Selection) : bool :=
  isFunctionContainer c funcName
  && negb (extractFunctionSection maxDepth c funcName 0 =? EmptyString).

(** The sections of the descendants that yield one, in document order,
    each followed by a blank line. *)
Definition sectionsBelow (maxDepth : Z) (s : Selection) (funcName : string)
  : string :=
  concatAll
    (map (fun c => extractFunctionSection maxDepth c funcName 0 ++ LF ++ LF)
         (filter (yields maxDepth funcName) (descendants (selNode s)))).

(** What a container gives when no symbol is asked for: its trimmed
    text and a blank line, if it has any, and then the content of each
    [pre], [code] and [table] below it, between two line feeds. *)
Definition genericBlock (e : Selection) : string :=
  (if TrimSpace (Text e) =? EmptyString then EmptyString
   else TrimSpace (Text e) ++ LF ++ LF)
  ++ concatAll
       (map (fun s => LF ++ Html s ++ LF)
            (Find e [ByTag "pre"; ByTag "code"; ByTag "table"])).

(** The blocks of the matches of each generic selector, selector after
    selector. *)
Definition genericText (doc : Document) : string :=
  concatAll
    (map (fun selector => concatAll (map genericBlock (docFind doc selector)))
         genericSelectors).

End Shapes.

(** ** Pages used as examples *)

Module Samples.
Import GoStrings Dom Colly Scraper.

(** A parsed page: [html] with a [head] and a [body]. *)
Definition page (head body : list Node) : Document :=
  [ElementNode "html" [] [ElementNode "head" [] head; ElementNode "body" [] body]].

(** A web on which every URL is well formed and serves [doc]. *)
Definition serving (doc : Document) : Web :=
  mkWeb (fun _ => true) (fun _ _ => Some doc).

Definition para (text : string) : Node := ElementNode "p" [] [TextNode text].

(** The siblings after the heading of [createUser]: a paragraph, a
    deeper heading with its paragraph, then the heading of the next
    function and its paragraph. *)
Definition afterCreateUser : list Node :=
  [TextNode " "; para "Creates a user.";
   ElementNode "h3" [] [TextNode "Errors"]; para "None.";
   ElementNode "h2" [] [TextNode "deleteUser"]; para "Deletes a user."].

Definition createUserHeading : Selection :=
  mkSelection (ElementNode "h2" [("id", "createUser")] [TextNode "createUser"])
              afterCreateUser.

(** A block named after [foo] whose text does not mention it. *)
Definition divNamedOnly : Selection :=
  mkSelection (ElementNode "div" [("id", "foo")] [TextNode "bar"]) [].

(** A block named after [foo], with prose and a code sample. *)
Definition divWithCode : Selection :=
  mkSelection
    (ElementNode "div" [("id", "foo")]
       [TextNode "foo "; ElementNode "code" [] [TextNode "foo()"]; TextNode " more"])
    [para "next"].


(** A block with a heading that is exactly [foo]. *)
Definition divWithHeading : Selection :=
  mkSelection
    (ElementNode "div" []
       [ElementNode "h3" [] [TextNode " foo "]; para "does things"])
    [].

(** A block that mentions [foo] in prose and in a longer heading only. *)
Definition divMentioning : Selection :=
  mkSelection
    (ElementNode "div" []
       [ElementNode "h3" [] [TextNode "foo and bar"]; para "see foo"])
    [].



(** A page with nothing but an empty [pre] in [main]. *)
Definition pageEmptyPre : Document :=
  page [] [ElementNode "main" [] [ElementNode "pre" [] []]].

(** A page whose only content is a table that mentions [foo]. *)
Definition pageTable : Document :=
  page []
       [ElementNode "table" []
          [ElementNode "tbody" []
             [ElementNode "tr" [] [ElementNode "td" [] [TextNode "foo"]]]]].

(** A page with a title and no container. *)
Definition pageTitled : Document :=
  page [ElementNode "title" [] [TextNode "API"]] [para "hello"].

(** A page with a title, a container and code. *)
Definition pageDocs : Document :=
  page [ElementNode "title" [] [TextNode "API"]]
       [ElementNode "main" []
          [ElementNode "h2" [] [TextNode "foo"]; para "does things";
           ElementNode "pre" [] [TextNode "foo(1)"];
           ElementNode "pre" [] [TextNode "bar(2)"]]].

(** A page with no title, no container and no code. *)
Definition pagePlain : Document := page [] [para "hello"].

End Samples.

(** ** Further examples *)

Module MoreSamples.
Import GoStrings Dom Colly TypeGen Common.

(** A stand-in for a compiled expression that finds one code block with
    the body [body], and replaces nothing. *)
Definition oneBlockRegexp (body : string) : Regexp :=
  mkRegexp (fun text => [[text; body]]) (fun src repl => src).

(** A stand-in for a compiled expression that finds nothing and replaces
    nothing. *)
Definition noMatchRegexp : Regexp :=
  mkRegexp (fun text => []) (fun src repl => src).

(** An environment with a value from a file with Windows line endings
    under a key that is cleaned and under one that is not. *)
Definition windowsEnv : Env :=
  fun key =>
    if key =? "DEFAULT_LANG" then "go" ++ CR
    else if key =? "EDITOR" then "vi" ++ CR
    else EmptyString.

(** A page whose heading for [foo] lies directly in the body. *)
Definition pageBareHeading : Document :=
  Samples.page [] [ElementNode "h2" [] [TextNode "foo"]; Samples.para "does things"].

End MoreSamples.

(** ** Facts about strings *)

Module StringFacts.
Import GoStrings.

Lemma append_nil_r (s : string) : s ++ EmptyString = s.
Proof. induction s as [|c s IH]; simpl; [reflexivity | now rewrite IH]. Qed.

Lemma append_nil_l (s : string) : EmptyString ++ s = s.
Proof. reflexivity. Qed.

Lemma append_assoc (a b c : string) : (a ++ b) ++ c = a ++ (b ++ c).
Proof. induction a as [|x a IH]; simpl; [reflexivity | now rewrite IH]. Qed.

Lemma append_cancel_l (a b c : string) : a ++ b = a ++ c -> b = c.
Proof.
  induction a as [|x a IH]; simpl; intros H; [exact H|].
  inversion H; auto.
Qed.

Lemma append_eq_nil (a b : string) :
  a ++ b = EmptyString -> a = EmptyString /\ b = EmptyString.
Proof. destruct a; simpl; intros H; [auto | discriminate]. Qed.

Lemma concatAll_app (l1 l2 : list string) :
  concatAll (l1 ++ l2)%list = concatAll l1 ++ concatAll l2.
Proof.
  induction l1 as [|s l1 IH]; simpl; [reflexivity|].
  now rewrite IH, append_assoc.
Qed.

Lemma prefix_true_iff (p s : string) :
  prefix p s = true <-> exists b, s = p ++ b.
Proof.
  revert s; induction p as [|c p IH]; intros s.
  - destruct s; simpl; split; eauto.
  - destruct s as [|d s]; simpl.
    + split; [discriminate | intros [b Hb]; discriminate].
    + destruct (ascii_dec c d) as [->|Hn].
      * rewrite IH. split; intros [b Hb]; exists b.
        -- now rewrite Hb.
        -- now inversion Hb.
      * split; [discriminate|]. intros [b Hb]. inversion Hb. congruence.
Qed.

Lemma Contains_true_iff (s sub : string) :
  Contains s sub = true <-> Infix sub s.
Proof.
  unfold Infix. induction s as [|c s IH].
  - cbn [Contains]. destruct (prefix sub EmptyString) eqn:Hp.
    + split; [intros _|reflexivity].
      apply prefix_true_iff in Hp. destruct Hp as [b Hb].
      exists EmptyString, b. exact Hb.
    + split; [discriminate|]. intros (a & b & Hab).
      symmetry in Hab. apply append_eq_nil in Hab. destruct Hab as [-> Hab].
      apply append_eq_nil in Hab. destruct Hab as [-> _].
      discriminate Hp.
  - cbn [Contains]. destruct (prefix sub (String c s)) eqn:Hp.
    + split; [intros _|reflexivity].
      apply prefix_true_iff in Hp. destruct Hp as [b Hb].
      exists EmptyString, b. exact Hb.
    + rewrite IH. split.
      * intros (a & b & ->). exists (String c a), b. reflexivity.
      * intros (a & b & Hab). destruct a as [|x a].
        -- assert (prefix sub (String c s) = true) as Hp'.
           { apply prefix_true_iff. exists b. exact Hab. }
           congruence.
        -- cbn [append] in Hab. inversion Hab. exists a, b. reflexivity.
Qed.

Lemma Contains_false_iff (s sub : string) :
  Contains s sub = false <-> ~ Infix sub s.
Proof.
  rewrite <- Contains_true_iff. destruct (Contains s sub); split; intros; congruence.
Qed.

Lemma Contains_empty (s : string) : Contains s EmptyString = true.
Proof. apply Contains_true_iff. exists EmptyString, s. reflexivity. Qed.

Lemma Infix_refl (s : string) : Infix s s.
Proof. exists EmptyString, EmptyString. simpl. now rewrite append_nil_r. Qed.

Lemma Infix_trans (a b c : string) : Infix a b -> Infix b c -> Infix a c.
Proof.
  intros (x & y & ->) (u & v & ->).
  exists (u ++ x), (y ++ v). now rewrite !append_assoc.
Qed.

Lemma Infix_app_l (a s t : string) : Infix a s -> Infix a (s ++ t).
Proof.
  intros (x & y & ->). exists x, (y ++ t). now rewrite !append_assoc.
Qed.

Lemma Infix_app_r (a s t : string) : Infix a t -> Infix a (s ++ t).
Proof.
  intros (x & y & ->). exists (s ++ x), y. now rewrite !append_assoc.
Qed.

Lemma TrimLeft_suffix (s : string) : exists w, s = w ++ TrimLeft s.
Proof.
  induction s as [|c s [w IH]]; simpl.
  - exists EmptyString. reflexivity.
  - destruct (isSpace c).
    + exists (String c w). simpl. now rewrite <- IH.
    + exists EmptyString. reflexivity.
Qed.

Lemma TrimRight_prefix (s : string) : exists w, s = TrimRight s ++ w.
Proof.
  induction s as [|c s [w IH]]; simpl.
  - exists EmptyString. reflexivity.
  - destruct (TrimRight s) as [|d r] eqn:Hr.
    + destruct (isSpace c).
      * exists (String c s). reflexivity.
      * exists s. reflexivity.
    + exists w. simpl. simpl in IH. now rewrite <- IH.
Qed.

Lemma TrimSpace_Infix (s : string) : Infix (TrimSpace s) s.
Proof.
  unfold TrimSpace.
  destruct (TrimLeft_suffix s) as [w Hw].
  destruct (TrimRight_prefix (TrimLeft s)) as [v Hv].
  exists w, v. rewrite <- Hv. exact Hw.
Qed.

(** Writes to a builder, brought to one right-nested concatenation. *)
Ltac flatten_writes :=
  unfold WriteString;
  repeat rewrite append_assoc;
  repeat rewrite append_nil_l;
  repeat rewrite append_nil_r.

End StringFacts.

(** ** Facts about pages *)

Module DomFacts.
Import GoStrings Dom StringFacts.

Lemma descendants_element (tag : string) (attr : list (string * string))
      (cs : list Node) :
  descendants (ElementNode tag attr cs) = elementsOf cs.
Proof.
  cbn [descendants]. induction cs as [|c cs IH]; [reflexivity|].
  cbn [elementsOf]. now rewrite <- IH.
Qed.

Lemma In_elementsOf (d : Selection) (c : Node) (rest : list Node) :
  In d (elementsOf (c :: rest)) ->
  (isElement c = true /\ d = mkSelection c rest)
  \/ In d (descendants c) \/ In d (elementsOf rest).
Proof.
  cbn [elementsOf]. intros H.
  apply in_app_or in H. destruct H as [H|H].
  - destruct (isElement c); [|contradiction].
    destruct H as [<-|[]]. left; split; reflexivity.
  - apply in_app_or in H. tauto.
Qed.

(** Every selection found below a node holds an element. *)
Lemma descendants_isElement (n : Node) :
  forall d, In d (descendants n) -> isElement (selNode d) = true.
Proof.
  induction n as [d0|d0|tag attr cs IH] using Node_rose_ind;
    [intros d [] | intros d [] |].
  rewrite descendants_element.
  induction IH as [|c cs Hc _ IHcs]; intros d Hd; [destruct Hd|].
  apply In_elementsOf in Hd. destruct Hd as [[He ->]|[Hd|Hd]]; auto.
Qed.

(** The text of a descendant occurs in the text of the node. *)
Lemma descendant_text_Infix (n : Node) :
  forall d, In d (descendants n) -> Infix (Text d) (nodeText n).
Proof.
  induction n as [d0|d0|tag attr cs IH] using Node_rose_ind;
    [intros d [] | intros d [] |].
  rewrite descendants_element. cbn [nodeText].
  induction IH as [|c cs Hc _ IHcs]; intros d Hd; [destruct Hd|].
  cbn [map concatAll].
  apply In_elementsOf in Hd. destruct Hd as [[He ->]|[Hd|Hd]].
  - apply Infix_app_l. apply Infix_refl.
  - apply Infix_app_l. apply Hc. exact Hd.
  - apply Infix_app_r. apply IHcs. exact Hd.
Qed.

Lemma In_Find (s d : Selection) (sel : selector) :
  In d (Find s sel) <-> In d (descendants (selNode s)) /\ matches sel (selNode d) = true.
Proof. unfold Find. apply filter_In. Qed.

End DomFacts.

(** ** Facts about loops that write to a builder *)

Module LoopFacts.
Import GoStrings StringFacts.

(** A loop that only ever raises a flag. *)
Lemma fold_flag {A : Type} (p : A -> bool) (l : list A) (b : bool) :
  fold_left (fun found x => if p x then true else found) l b = b || existsb p l.
Proof.
  revert b; induction l as [|x l IH]; intros b; cbn [fold_left existsb].
  - now rewrite orb_false_r.
  - rewrite IH. destruct (p x), b; reflexivity.
Qed.

(** A loop whose body appends to the builder writes, after what was
    there, what each round appends. *)
Lemma fold_append {A : Type} (f : Builder -> A -> Builder) (g : A -> string) :
  (forall content x, f content x = content ++ g x) ->
  forall (l : list A) (content : Builder),
    fold_left f l content = content ++ concatAll (map g l).
Proof.
  intros Hf l; induction l as [|x l IH]; intros content; cbn [fold_left map concatAll].
  - now rewrite append_nil_r.
  - now rewrite IH, Hf, append_assoc.
Qed.

Lemma fold_left_pointwise {A B : Type} (f g : B -> A -> B) (l : list A) (b : B) :
  (forall c x, f c x = g c x) -> fold_left f l b = fold_left g l b.
Proof.
  intros H; revert b; induction l as [|x l IH]; intros b; cbn [fold_left];
    [reflexivity|]. now rewrite H, IH.
Qed.

(** A loop that appends for some of the elements only. *)
Lemma fold_append_if {A : Type} (p : A -> bool) (g : A -> string) (l : list A) :
  forall content : Builder,
    fold_left (fun content x => if p x then WriteString content (g x) else content)
              l content
    = content ++ concatAll (map g (filter p l)).
Proof.
  induction l as [|x l IH]; intros content; cbn [fold_left filter].
  - cbn. now rewrite append_nil_r.
  - rewrite IH. destruct (p x); [|reflexivity].
    cbn [map concatAll]. unfold WriteString. now rewrite append_assoc.
Qed.

End LoopFacts.

(** ** Facts about the scraper *)

Module ScraperFacts.
Import GoStrings Dom Colly Scraper Outline StringFacts DomFacts LoopFacts.

(** The sibling loop writes the content of the element siblings up to
    the first heading at level [headingLevel] or above, and of no other. *)
Lemma walkSiblings_spec (headingLevel : Z) (rest : list Node) :
  forall content : Builder,
  exists included excluded,
    followingElements rest = (included ++ excluded)%list /\
    Forall (fun x => isHeadingElement x
                     && (getHeadingLevel x <=? headingLevel)%Z = false) included /\
    (excluded = [] \/
     exists b r, excluded = b :: r /\
                 isHeadingElement b && (getHeadingLevel b <=? headingLevel)%Z = true) /\
    walkSiblings headingLevel rest content =
      content ++ concatAll (map (fun x => Html x ++ LF) included).
Proof.
  induction rest as [|n rest IH]; intros content.
  - exists [], []. cbn. rewrite append_nil_r. auto.
  - cbn [walkSiblings followingElements]. destruct (isElement n).
    + destruct (isHeadingElement (mkSelection n rest)
                && (getHeadingLevel (mkSelection n rest) <=? headingLevel)%Z) eqn:Hb.
      * exists [], (mkSelection n rest :: followingElements rest).
        cbn. rewrite append_nil_r. repeat split; eauto.
      * destruct (IH (WriteString (WriteString content (Html (mkSelection n rest))) LF))
          as (inc & exc & Heq & Hall & Hexc & Hw).
        exists (mkSelection n rest :: inc), exc.
        rewrite Heq, Hw. unfold WriteString. cbn [map concatAll].
        repeat split; auto.
        now rewrite !append_assoc.
    + apply IH.
Qed.

(** An element matches the heading selector exactly when it is a heading. *)
Lemma matches_headingSelector (d : Selection) :
  isElement (selNode d) = true ->
  matches headingSelector (selNode d) = isHeadingElement d.
Proof.
  destruct d as [[d0|d0|tag attr cs] fol]; cbn [selNode isElement];
    [discriminate | discriminate | intros _].
  unfold isHeadingElement, NodeName, headingSelector, matches.
  cbn [selNode existsb matchSimple].
  rewrite orb_false_r, !orb_assoc. reflexivity.
Qed.

(** The attribute test, in words. *)
Lemma attrNamesFunction_iff (attr funcName : string) :
  attrNamesFunction attr funcName = true <-> namesFunction attr funcName.
Proof.
  unfold attrNamesFunction, namesFunction.
  rewrite !orb_true_iff, !String.eqb_eq. tauto.
Qed.

(** The guard on [depth] lets every call at depth 0 through, whatever
    the bound, as long as the bound is not negative. *)
Lemma extractFunctionSection_depth0 (limit : Z) (s : Selection) (funcName : string) :
  (0 <= limit)%Z ->
  extractFunctionSection limit s funcName 0 = extractFunctionSection maxDepth s funcName 0.
Proof.
  intros H. unfold extractFunctionSection.
  assert ((0 >? limit)%Z = false) as ->
    by (rewrite Z.gtb_ltb; apply Z.ltb_ge; exact H).
  reflexivity.
Qed.

Lemma extractRelevantSection_limit (limit : Z) (s : Selection) (funcName : string) :
  (0 <= limit)%Z ->
  extractRelevantSection limit s funcName = extractRelevantSection maxDepth s funcName.
Proof.
  intros H. unfold extractRelevantSection.
  rewrite (extractFunctionSection_depth0 limit s funcName H).
  destruct (isFunctionContainer s funcName); [reflexivity|].
  apply fold_left_pointwise. intros c x.
  now rewrite (extractFunctionSection_depth0 limit x funcName H).
Qed.

(** Callbacks that agree leave the same text. *)
Lemma handleOnHTML_ext (doc : Document) (cbs1 cbs2 : list htmlCallback) :
  Forall2 sameCallback cbs1 cbs2 ->
  forall content, handleOnHTML doc cbs1 content = handleOnHTML doc cbs2 content.
Proof.
  unfold handleOnHTML.
  induction 1 as [|c1 c2 l1 l2 [Hs Hf] _ IH]; intros content; cbn [fold_left];
    [reflexivity|].
  rewrite Hs, <- IH. f_equal.
  apply fold_left_pointwise. intros c x. apply Hf.
Qed.

Lemma onContainer_limit (limit : Z) (funcName : string) (e : Selection)
      (content : Builder) :
  (0 <= limit)%Z ->
  onContainer limit funcName e content = onContainer maxDepth funcName e content.
Proof.
  intros H. unfold onContainer.
  now rewrite (extractRelevantSection_limit limit e funcName H).
Qed.

Lemma onAny_limit (limit : Z) (funcName : string) (e : Selection)
      (content : Builder) :
  (0 <= limit)%Z ->
  onAny limit funcName e content = onAny maxDepth funcName e content.
Proof.
  intros H. unfold onAny.
  now rewrite (extractRelevantSection_limit limit e funcName H).
Qed.

Lemma sameCallback_refl (c : htmlCallback) : sameCallback c c.
Proof. split; reflexivity. Qed.

Lemma firstPass_limit (limit : Z) (doc : Document) (funcName : string) :
  (0 <= limit)%Z ->
  firstPass limit doc funcName = firstPass maxDepth doc funcName.
Proof.
  intros H. unfold firstPass. apply handleOnHTML_ext.
  unfold firstPassCallbacks. constructor; [apply sameCallback_refl|].
  apply Forall2_app.
  - induction (selectors funcName) as [|sel l IH]; cbn [map]; constructor; auto.
    split; [reflexivity|]. intros e content. cbn [Function].
    apply onContainer_limit, H.
  - constructor; [apply sameCallback_refl | constructor].
Qed.

Lemma secondPass_limit (limit : Z) (doc : Document) (funcName : string) :
  (0 <= limit)%Z ->
  secondPass limit doc funcName = secondPass maxDepth doc funcName.
Proof.
  intros H. unfold secondPass. apply handleOnHTML_ext.
  unfold secondPassCallbacks. constructor; [|constructor].
  split; [reflexivity|]. intros e content. cbn [Function].
  apply onAny_limit, H.
Qed.



Lemma handleOnHTML_app (doc : Document) (cbs1 cbs2 : list htmlCallback)
      (content : Builder) :
  handleOnHTML doc (cbs1 ++ cbs2)%list content
  = handleOnHTML doc cbs2 (handleOnHTML doc cbs1 content).
Proof. unfold handleOnHTML. apply fold_left_app. Qed.

Lemma handleOnHTML_appends (doc : Document) (cbs : list htmlCallback) :
  Forall (fun cc => appends (Function cc)) cbs ->
  forall content,
    handleOnHTML doc cbs content = content ++ handleOnHTML doc cbs EmptyString.
Proof.
  unfold handleOnHTML.
  induction 1 as [|cc cbs Hcc _ IH]; intros content; cbn [fold_left].
  - now rewrite append_nil_r.
  - rewrite IH. symmetry. rewrite IH. symmetry.
    rewrite <- append_assoc. f_equal.
    rewrite (fold_append (fun content e => Function cc e content)
                         (fun e => Function cc e EmptyString)
                         (fun c x => Hcc x c)).
    rewrite (fold_append (fun content e => Function cc e content)
                         (fun e => Function cc e EmptyString)
                         (fun c x => Hcc x c)).
    reflexivity.
Qed.

Lemma onTitle_appends : appends onTitle.
Proof. intros e content. reflexivity. Qed.

Lemma onContainer_appends (limit : Z) (funcName : string) :
  appends (onContainer limit funcName).
Proof.
  intros e content. unfold onContainer.
  destruct (negb (funcName =? EmptyString)).
  - destruct (Contains (Text e) funcName); [|now rewrite append_nil_r].
    destruct (negb (extractRelevantSection limit e funcName =? EmptyString));
      [|now rewrite append_nil_r].
    flatten_writes. reflexivity.
  - rewrite !(fold_append
               (fun content s =>
                  WriteString (WriteString (WriteString content LF) (Html s)) LF)
               (fun s => LF ++ Html s ++ LF)).
    2,3: intros c x; flatten_writes; reflexivity.
    destruct (negb (TrimSpace (Text e) =? EmptyString));
      flatten_writes; reflexivity.
Qed.

Lemma onCode_harvest (funcName : string) (e : Selection) (content : Builder) :
  onCode funcName e content =
    if harvestable funcName e then WriteString content (fenced (Text e))
    else content.
Proof.
  unfold onCode, harvestable, fenced.
  destruct (funcName =? EmptyString); cbn [negb andb orb].
  - destruct (Text e =? EmptyString); cbn [negb]; [reflexivity|].
    flatten_writes. reflexivity.
  - destruct (Contains (Text e) funcName); cbn [negb andb]; [|reflexivity].
    destruct (Text e =? EmptyString); cbn [negb]; [reflexivity|].
    flatten_writes. reflexivity.
Qed.

Lemma onCode_appends (funcName : string) : appends (onCode funcName).
Proof.
  intros e content. rewrite !onCode_harvest.
  destruct (harvestable funcName e); [reflexivity | now rewrite append_nil_r].
Qed.

(** The first pass writes the title lines, then what the containers
    give, then the code blocks. *)
Lemma firstPass_parts (limit : Z) (doc : Document) (funcName : string) :
  firstPass limit doc funcName =
    titleLines doc ++ containerText limit doc funcName ++ harvest doc funcName.
Proof.
  unfold firstPass, firstPassCallbacks.
  change (mkCallback [ByTag "title"] onTitle :: ?l)%list
    with ([mkCallback [ByTag "title"] onTitle] ++ l)%list.
  rewrite !handleOnHTML_app.
  rewrite (handleOnHTML_appends doc [mkCallback codeSelector (onCode funcName)]).
  2:{ constructor; [apply onCode_appends | constructor]. }
  rewrite (handleOnHTML_appends doc (map _ (selectors funcName))).
  2:{ apply Forall_forall. intros cc Hcc. apply in_map_iff in Hcc.
      destruct Hcc as (sel & <- & _). apply onContainer_appends. }
  fold (containerText limit doc funcName).
  rewrite append_assoc. f_equal.
  - unfold handleOnHTML, titleLines. cbn [fold_left Selector Function].
    rewrite (fold_append (fun content e => onTitle e content)
                         (fun t => "# " ++ Text t ++ LF ++ LF)).
    + apply append_nil_l.
    + intros c x. reflexivity.
  - f_equal. unfold handleOnHTML, harvest. cbn [fold_left Selector Function].
    rewrite (fold_left_pointwise _
               (fun content e =>
                  if harvestable funcName e
                  then WriteString content (fenced (Text e)) else content)).
    + rewrite fold_append_if. apply append_nil_l.
    + intros c x. apply onCode_harvest.
Qed.

Lemma In_concatAll_Infix {A : Type} (g : A -> string) (x : A) (l : list A) :
  In x l -> Infix (g x) (concatAll (map g l)).
Proof.
  induction l as [|y l IH]; intros H; [destruct H|].
  cbn [map concatAll]. destruct H as [->|H].
  - apply Infix_app_l, Infix_refl.
  - apply Infix_app_r, IH, H.
Qed.

Lemma Infix_nonempty (a s : string) :
  Infix a s -> a <> EmptyString -> s <> EmptyString.
Proof.
  intros (x & y & ->) Ha He. apply append_eq_nil in He. destruct He as [_ He].
  apply append_eq_nil in He. destruct He as [He _]. contradiction.
Qed.

Lemma Contains_nil_l (sub : string) :
  Contains EmptyString sub = true <-> sub = EmptyString.
Proof.
  rewrite Contains_true_iff. split.
  - intros (a & b & H). symmetry in H. apply append_eq_nil in H.
    destruct H as [_ H]. apply append_eq_nil in H. tauto.
  - intros ->. apply Infix_refl.
Qed.

(** The level the code gives a tag is its level in the outline: the
    headings of the code are the tags h1 to h6, with the levels 1 to 6. *)
Lemma outlineLevel_tag (tag : string) :
  outlineLevel tag =
    if tag =? "h1" then Some 1%Z
    else if tag =? "h2" then Some 2%Z
    else if tag =? "h3" then Some 3%Z
    else if tag =? "h4" then Some 4%Z
    else if tag =? "h5" then Some 5%Z
    else if tag =? "h6" then Some 6%Z
    else None.
Proof.
  destruct tag as [|h [|d [|e rest]]].
  - reflexivity.
  - cbn. destruct (Ascii.eqb h "h"); reflexivity.
  - cbn [outlineLevel String.eqb].
    change (ascii_of_nat 104) with "h"%char.
    destruct (Ascii.eqb h "h"); cbn [andb]; [|reflexivity].
    destruct d as [[] [] [] [] [] [] [] []]; reflexivity.
  - cbn [outlineLevel String.eqb].
    destruct (Ascii.eqb h "h"); [|reflexivity].
    repeat match goal with
           | |- context [Ascii.eqb d ?c] => destruct (Ascii.eqb d c)
           end;
      reflexivity.
Qed.

Lemma outlineLevel_code (s : Selection) (level : Z) :
  outlineLevel (NodeName s) = Some level <->
  isHeadingElement s = true /\ getHeadingLevel s = level.
Proof.
  rewrite outlineLevel_tag. unfold isHeadingElement, getHeadingLevel.
  destruct (NodeName s =? "h1");
    [cbn; split; [intros H; inversion H; auto | intros [_ <-]; reflexivity]|].
  destruct (NodeName s =? "h2");
    [cbn; split; [intros H; inversion H; auto | intros [_ <-]; reflexivity]|].
  destruct (NodeName s =? "h3");
    [cbn; split; [intros H; inversion H; auto | intros [_ <-]; reflexivity]|].
  destruct (NodeName s =? "h4");
    [cbn; split; [intros H; inversion H; auto | intros [_ <-]; reflexivity]|].
  destruct (NodeName s =? "h5");
    [cbn; split; [intros H; inversion H; auto | intros [_ <-]; reflexivity]|].
  destruct (NodeName s =? "h6");
    cbn; split; [intros H; inversion H; auto | intros [_ <-]; reflexivity
                | discriminate | intros [H _]; discriminate H].
Qed.

(** The test of the sibling loop is the end of the section in the
    outline. *)
Lemma endsSection_code (s x : Selection) (level : Z) :
  outlineLevel (NodeName s) = Some level ->
  isHeadingElement x && (getHeadingLevel x <=? getHeadingLevel s)%Z
  = endsSection s x.
Proof.
  intros Hs. unfold endsSection. rewrite Hs.
  apply outlineLevel_code in Hs. destruct Hs as [_ ->].
  destruct (outlineLevel (NodeName x)) as [next|] eqn:Hx.
  - apply outlineLevel_code in Hx. destruct Hx as [-> ->]. reflexivity.
  - destruct (isHeadingElement x) eqn:Hh; [|reflexivity].
    assert (outlineLevel (NodeName x) = Some (getHeadingLevel x)) as Hx'
        by (apply outlineLevel_code; auto).
    congruence.
Qed.

Lemma followingElements_nodes (rest : list Node) :
  map selNode (followingElements rest) = filter isElement rest.
Proof.
  induction rest as [|n rest IH]; cbn [followingElements filter]; [reflexivity|].
  destruct (isElement n); cbn [map selNode]; now rewrite IH.
Qed.

End ScraperFacts.

(** * The claims of the specification *)

Import GoStrings Dom Colly Scraper Outline Samples.
Import StringFacts DomFacts LoopFacts ScraperFacts.

(** C1.  For a heading whose text contains the symbol,
    [extractFunctionSection] returns the heading followed by the content of
    each sibling that follows it, in document order, up to and excluding
    the first one that is a heading of the same or a shallower level:
    every sibling before that one is included, that one and everything
    after it is not.  The levels are those of the outline, h1 to h6 for 1
    to 6.  The siblings are the elements among the nodes that follow the
    heading, as goquery's [Next] gives them, and the content of one is its
    inner HTML.  This is also what [extractRelevantSection] returns for
    the heading. *)
Theorem C1_heading_section (s : Selection) (funcName : string)
        (level depth : Z) :
  outlineLevel (NodeName s) = Some level ->
  Contains (Text s) funcName = true ->
  (depth <= maxDepth)%Z ->
  map selNode (NextAll s) = filter isElement (selFollowing s) /\
  exists included excluded,
    NextAll s = (included ++ excluded)%list /\
    Forall (fun x => endsSection s x = false) included /\
    (excluded = [] \/ exists b r, excluded = b :: r /\ endsSection s b = true) /\
    extractFunctionSection maxDepth s funcName depth =
      "<" ++ NodeName s ++ ">" ++ Html s ++ "</" ++ NodeName s ++ ">" ++ LF
      ++ concatAll (map (fun x => Html x ++ LF) included) /\
    extractRelevantSection maxDepth s funcName =
      extractFunctionSection maxDepth s funcName depth.
Proof.
  intros Hl Hc Hd.
  split; [apply followingElements_nodes|].
  assert (isHeadingElement s = true) as Hh
      by (apply (outlineLevel_code s level); exact Hl).
  destruct (walkSiblings_spec (getHeadingLevel s) (selFollowing s)
              (WriteString EmptyString
                 ("<" ++ NodeName s ++ ">" ++ Html s ++ "</" ++ NodeName s ++ ">" ++ LF)))
    as (inc & exc & Heq & Hall & Hexc & Hw).
  assert (forall d, (d <= maxDepth)%Z ->
            extractFunctionSection maxDepth s funcName d =
              "<" ++ NodeName s ++ ">" ++ Html s ++ "</" ++ NodeName s ++ ">" ++ LF
              ++ concatAll (map (fun x => Html x ++ LF) inc)) as Hout.
  { intros d Hd'. unfold extractFunctionSection.
    assert ((d >? maxDepth)%Z = false) as ->
      by (rewrite Z.gtb_ltb; apply Z.ltb_ge; exact Hd').
    rewrite Hh, Hc. cbn [andb]. rewrite Hw. flatten_writes. reflexivity. }
  exists inc, exc. unfold NextAll. split; [exact Heq|]. split; [|split; [|split]].
  - eapply Forall_impl; [|exact Hall]. intros x Hx.
    now rewrite <- (endsSection_code s x level Hl).
  - destruct Hexc as [->|(b & r & -> & Hb)]; [left; reflexivity|].
    right. exists b, r. split; [reflexivity|].
    now rewrite <- (endsSection_code s b level Hl).
  - apply Hout, Hd.
  - unfold extractRelevantSection.
    assert (isFunctionContainer s funcName = true) as ->.
    { unfold isFunctionContainer. now rewrite Hc, Hh. }
    rewrite (Hout depth Hd), (Hout 0%Z) by (unfold maxDepth; lia).
    reflexivity.
Qed.

Lemma C1_heading_section_witness :
  map selNode (NextAll createUserHeading)
  = filter isElement (selFollowing createUserHeading) /\
  exists included excluded,
    NextAll createUserHeading = (included ++ excluded)%list /\
    Forall (fun x => endsSection createUserHeading x = false) included /\
    (excluded = [] \/
     exists b r, excluded = b :: r /\ endsSection createUserHeading b = true) /\
    extractFunctionSection maxDepth createUserHeading "createUser" 0 =
      "<" ++ NodeName createUserHeading ++ ">" ++ Html createUserHeading
      ++ "</" ++ NodeName createUserHeading ++ ">" ++ LF
      ++ concatAll (map (fun x => Html x ++ LF) included) /\
    extractRelevantSection maxDepth createUserHeading "createUser" =
      extractFunctionSection maxDepth createUserHeading "createUser" 0.
Proof.
  apply (C1_heading_section createUserHeading "createUser" 2 0);
    [reflexivity | reflexivity | unfold maxDepth; lia].
Defined.

(** In the outline, the section of an h2 goes on through an h3 and ends
    at an h2 and at an h1; a paragraph ends no section. *)
Example outline_of_h2 :
  outlineLevel "h2" = Some 2%Z /\
  endsSection createUserHeading
    (mkSelection (ElementNode "h3" [] [TextNode "Errors"]) []) = false /\
  endsSection createUserHeading
    (mkSelection (ElementNode "h2" [] [TextNode "deleteUser"]) []) = true /\
  endsSection createUserHeading
    (mkSelection (ElementNode "h1" [] [TextNode "API"]) []) = true /\
  endsSection createUserHeading (mkSelection (para "Creates a user.") []) = false.
Proof. repeat split. Qed.

(** The section of [createUser] in the sample: the heading, the
    paragraph, the deeper heading and its paragraph, and nothing of
    [deleteUser]. *)
Example createUser_section :
  extractFunctionSection maxDepth createUserHeading "createUser" 0
  = "<h2>createUser</h2>" ++ LF ++ "Creates a user." ++ LF
    ++ "Errors" ++ LF ++ "None." ++ LF.
Proof. reflexivity. Qed.

(** C10.  [extractFunctionSection] is a plain definition, without a call
    to itself, and [extractRelevantSection], its only caller, passes
    depth 0 at both places.  So the guard [depth > maxDepth] is never
    taken, and the result of every function built on it is the same for
    any bound that is not negative as it is for the bound 3. *)
Theorem C10_depth_guard_unreachable (limit : Z) :
  (0 <= limit)%Z ->
  (0 >? limit)%Z = false /\
  (forall s funcName,
      extractFunctionSection limit s funcName 0
      = extractFunctionSection maxDepth s funcName 0) /\
  (forall s funcName,
      extractRelevantSection limit s funcName
      = extractRelevantSection maxDepth s funcName) /\
  (forall web docURL funcName,
      ScrapeDocumentation limit web docURL funcName
      = ScrapeDocumentation maxDepth web docURL funcName).
Proof.
  intros H. repeat split.
  - rewrite Z.gtb_ltb. apply Z.ltb_ge. exact H.
  - intros s f. apply extractFunctionSection_depth0, H.
  - intros s f. apply extractRelevantSection_limit, H.
  - intros web url f. unfold ScrapeDocumentation.
    destruct (negb (ParseRequestURI web url)); [reflexivity|].
    destruct (Visit web Targeted url) as [doc|]; [|reflexivity].
    rewrite (firstPass_limit limit doc f H).
    destruct (needsSecondPass f (firstPass maxDepth doc f)); [|reflexivity].
    destruct (Visit web Fallback url) as [doc2|]; [|reflexivity].
    now rewrite (secondPass_limit limit doc2 f H).
Qed.

Lemma C10_depth_guard_unreachable_witness :
  (0 >? 0)%Z = false /\
  (forall s funcName,
      extractFunctionSection 0 s funcName 0
      = extractFunctionSection maxDepth s funcName 0) /\
  (forall s funcName,
      extractRelevantSection 0 s funcName
      = extractRelevantSection maxDepth s funcName) /\
  (forall web docURL funcName,
      ScrapeDocumentation 0 web docURL funcName
      = ScrapeDocumentation maxDepth web docURL funcName).
Proof. apply (C10_depth_guard_unreachable 0). lia. Defined.

(** C4, as the code has it.  For a node one of whose [id], [name],
    [data-function] and [data-method] attributes, as supplied or
    lower-cased, is the symbol or one of its decorated forms, the node is
    a function container exactly when its text contains the symbol: this
    is the one further condition. *)
Theorem C4_named_container (s : Selection) (funcName key : string) :
  In key namingAttributes ->
  namesFunction (Attr s key) funcName
  \/ namesFunction (ToLower (Attr s key)) funcName ->
  isFunctionContainer s funcName = Contains (Text s) funcName.
Proof.
  intros Hk Hn. unfold isFunctionContainer.
  destruct (Contains (Text s) funcName); cbn [negb]; [|reflexivity].
  destruct (isHeadingElement s); [reflexivity|].
  assert (existsb (fun attr => attrNamesFunction attr funcName) (relevantAttrs s)
          = true) as ->; [|reflexivity].
  apply existsb_exists.
  destruct Hn as [Hn|Hn]; apply attrNamesFunction_iff in Hn.
  - exists (Attr s key). split; [|exact Hn].
    unfold relevantAttrs, namingAttributes in *. cbn [In] in *.
    intuition (subst; auto).
  - exists (ToLower (Attr s key)). split; [|exact Hn].
    unfold relevantAttrs, namingAttributes in *. cbn [In] in *.
    intuition (subst; auto 10).
Qed.

Lemma C4_named_container_witness :
  isFunctionContainer divWithCode "foo" = Contains (Text divWithCode) "foo"
  /\ isFunctionContainer divWithCode "foo" = true.
Proof.
  split; [|reflexivity].
  apply (C4_named_container divWithCode "foo" "id");
    [left; reflexivity | left; left; reflexivity].
Defined.

(** C4 as stated fails: the [id] of this block is the symbol, but its
    text does not contain the symbol, and it is no function container. *)
Lemma C4_counterexample :
  namesFunction (Attr divNamedOnly "id") "foo" /\
  isFunctionContainer divNamedOnly "foo" = false.
Proof. split; [left; reflexivity | reflexivity]. Qed.

(** C5.  For a [section], [div] or [article] none of whose naming
    attributes is the symbol or a decorated form of it, the container
    heuristic accepts the node exactly when it has a descendant heading
    (h1 to h6) whose trimmed text is the symbol; the symbol as a mere
    substring of the node's text does not make it a container. *)
Theorem C5_block_container (s : Selection) (funcName : string) :
  NodeName s = "section" \/ NodeName s = "div" \/ NodeName s = "article" ->
  (forall key, In key namingAttributes ->
               ~ namesFunction (Attr s key) funcName /\
               ~ namesFunction (ToLower (Attr s key)) funcName) ->
  (isFunctionContainer s funcName = true <->
   exists h, In h (descendants (selNode s)) /\
             isHeadingElement h = true /\
             TrimSpace (Text h) = funcName).
Proof.
  intros Hn Hattr.
  assert (isHeadingElement s = false) as Hhead.
  { unfold isHeadingElement. destruct Hn as [->|[->| ->]]; reflexivity. }
  assert ((NodeName s =? "section") || (NodeName s =? "div")
          || (NodeName s =? "article") = true) as Hnode.
  { destruct Hn as [->|[->| ->]]; reflexivity. }
  assert (existsb (fun attr => attrNamesFunction attr funcName) (relevantAttrs s)
          = false) as Hnone.
  { apply not_true_iff_false. intros H.
    apply existsb_exists in H. destruct H as (a & Hin & Ha).
    apply attrNamesFunction_iff in Ha.
    unfold relevantAttrs in Hin. cbn [In] in Hin.
    unfold namingAttributes in Hattr.
    destruct Hin as [<-|[<-|[<-|[<-|[<-|[<-|[<-|[<-|[]]]]]]]]].
    all: match goal with
         | H : namesFunction (Attr _ ?k) _ |- _ =>
             destruct (Hattr k) as [H1 _]; [cbn; tauto | exact (H1 H)]
         | H : namesFunction (ToLower (Attr _ ?k)) _ |- _ =>
             destruct (Hattr k) as [_ H2]; [cbn; tauto | exact (H2 H)]
         end. }
  unfold isFunctionContainer. rewrite Hhead, Hnone, Hnode, fold_flag.
  cbn [orb]. split.
  - destruct (Contains (Text s) funcName); cbn [negb]; [|discriminate].
    intros H. apply existsb_exists in H. destruct H as (h & Hin & Hp).
    apply In_Find in Hin. destruct Hin as [Hd Hm].
    exists h. repeat split; auto.
    + rewrite <- matches_headingSelector; [exact Hm|].
      eapply descendants_isElement; eauto.
    + now apply String.eqb_eq.
  - intros (h & Hd & Hh & Ht).
    assert (Contains (Text s) funcName = true) as ->.
    { apply Contains_true_iff.
      apply Infix_trans with (b := Text h).
      - rewrite <- Ht. apply TrimSpace_Infix.
      - apply descendant_text_Infix, Hd. }
    cbn [negb]. apply existsb_exists. exists h. split.
    + apply In_Find. split; [exact Hd|].
      rewrite matches_headingSelector; [exact Hh|].
      eapply descendants_isElement; eauto.
    + now apply String.eqb_eq.
Qed.

Lemma C5_block_container_witness :
  (isFunctionContainer divWithHeading "foo" = true <->
   exists h, In h (descendants (selNode divWithHeading)) /\
             isHeadingElement h = true /\
             TrimSpace (Text h) = "foo")
  /\ isFunctionContainer divMentioning "foo" = false.
Proof.
  split; [|reflexivity].
  apply (C5_block_container divWithHeading "foo").
  - right; left; reflexivity.
  - intros key Hk. rewrite <- !attrNamesFunction_iff.
    unfold namingAttributes in Hk. cbn [In] in Hk.
    destruct Hk as [<-|[<-|[<-|[<-|[]]]]]; vm_compute; split; discriminate.
Defined.






(** C2, as the code has it.  After a first pass that completed, the
    second pass is made exactly when the symbol is not empty and the text
    of the first pass does not contain it.  It is never made for the empty
    symbol, whatever the buffer; for a symbol that is not empty it is made
    when the buffer is empty, and when the buffer has text that omits the
    symbol. *)
Theorem C2_second_pass_condition (web : Web) (docURL funcName : string)
        (doc : Document) :
  ParseRequestURI web docURL = true ->
  Visit web Targeted docURL = Some doc ->
  (In Fallback (fst (ScrapeDocumentation maxDepth web docURL funcName)) <->
   funcName <> EmptyString /\
   Contains (firstPass maxDepth doc funcName) funcName = false) /\
  (funcName = EmptyString ->
   fst (ScrapeDocumentation maxDepth web docURL funcName) = [Targeted]) /\
  (funcName <> EmptyString ->
   firstPass maxDepth doc funcName = EmptyString ->
   In Fallback (fst (ScrapeDocumentation maxDepth web docURL funcName))).
Proof.
  intros Hu Hv.
  assert (In Fallback (fst (ScrapeDocumentation maxDepth web docURL funcName)) <->
          funcName <> EmptyString /\
          Contains (firstPass maxDepth doc funcName) funcName = false) as Hiff.
  { unfold ScrapeDocumentation, needsSecondPass. rewrite Hu, Hv. cbn [negb].
    destruct (String.eqb_spec funcName EmptyString) as [He|He]; cbn [negb andb].
    - cbn. split; [intros [H|[]]; discriminate H | intros [H _]; contradiction].
    - destruct (Contains (firstPass maxDepth doc funcName) funcName);
        cbn [negb].
      + cbn. split; [intros [H|[]]; discriminate H | intros [_ H]; discriminate H].
      + destruct (Visit web Fallback docURL); cbn; split; auto. }
  split; [exact Hiff | split].
  - intros ->. unfold ScrapeDocumentation, needsSecondPass. rewrite Hu, Hv.
    reflexivity.
  - intros Hne Hempty. apply Hiff. split; [exact Hne|].
    rewrite Hempty. apply not_true_iff_false. intros H.
    apply Contains_nil_l in H. contradiction.
Qed.

Lemma C2_second_pass_condition_witness :
  (In Fallback (fst (ScrapeDocumentation maxDepth (serving pageTable) "u" "foo")) <->
   "foo" <> EmptyString /\
   Contains (firstPass maxDepth pageTable "foo") "foo" = false) /\
  ("foo" = EmptyString ->
   fst (ScrapeDocumentation maxDepth (serving pageTable) "u" "foo") = [Targeted]) /\
  ("foo" <> EmptyString ->
   firstPass maxDepth pageTable "foo" = EmptyString ->
   In Fallback (fst (ScrapeDocumentation maxDepth (serving pageTable) "u" "foo"))).
Proof.
  apply (C2_second_pass_condition (serving pageTable) "u" "foo" pageTable);
    reflexivity.
Defined.

(** C2 as stated fails: with no symbol, the first pass over this page
    leaves the buffer empty, and the second pass is not made. *)
Lemma C2_counterexample :
  firstPass maxDepth pagePlain EmptyString = EmptyString /\
  ~ In Fallback
      (fst (ScrapeDocumentation maxDepth (serving pagePlain) "u" EmptyString)).
Proof. split; [reflexivity|]. cbn. intros [H|[]]. discriminate H. Qed.

(** C3, as the code has it.  The final buffer, that of the second pass
    when one was made and of the first otherwise, is not trimmed.  When it
    is the empty string the call fails, with the error that the function
    was not found if there is a symbol and with the error that no content
    was extracted if there is none; otherwise the buffer is returned as it
    is. *)
Theorem C3_raw_buffer (web : Web) (docURL funcName : string)
        (doc doc2 : Document) :
  ParseRequestURI web docURL = true ->
  Visit web Targeted docURL = Some doc ->
  Visit web Fallback docURL = Some doc2 ->
  let buffer :=
    if needsSecondPass funcName (firstPass maxDepth doc funcName)
    then secondPass maxDepth doc2 funcName
    else firstPass maxDepth doc funcName in
  (buffer = EmptyString -> funcName <> EmptyString ->
   snd (ScrapeDocumentation maxDepth web docURL funcName)
   = Err (FunctionNotFound funcName)) /\
  (buffer = EmptyString -> funcName = EmptyString ->
   snd (ScrapeDocumentation maxDepth web docURL funcName)
   = Err NoContentExtracted) /\
  (buffer <> EmptyString ->
   snd (ScrapeDocumentation maxDepth web docURL funcName) = Ok buffer).
Proof.
  intros Hu Hv Hv2 buffer.
  assert (snd (ScrapeDocumentation maxDepth web docURL funcName)
          = finish funcName buffer) as ->.
  { unfold ScrapeDocumentation, buffer. rewrite Hu, Hv, Hv2. cbn [negb].
    destruct (needsSecondPass funcName (firstPass maxDepth doc funcName));
      reflexivity. }
  unfold finish. repeat split.
  - intros -> Hne. cbn. apply String.eqb_neq in Hne. now rewrite Hne.
  - intros -> ->. reflexivity.
  - intros Hne. apply String.eqb_neq in Hne. now rewrite Hne.
Qed.

Lemma C3_raw_buffer_witness :
  let buffer :=
    if needsSecondPass EmptyString (firstPass maxDepth pageTitled EmptyString)
    then secondPass maxDepth pageTitled EmptyString
    else firstPass maxDepth pageTitled EmptyString in
  (buffer = EmptyString -> EmptyString <> EmptyString ->
   snd (ScrapeDocumentation maxDepth (serving pageTitled) "u" EmptyString)
   = Err (FunctionNotFound EmptyString)) /\
  (buffer = EmptyString -> EmptyString = EmptyString ->
   snd (ScrapeDocumentation maxDepth (serving pageTitled) "u" EmptyString)
   = Err NoContentExtracted) /\
  (buffer <> EmptyString ->
   snd (ScrapeDocumentation maxDepth (serving pageTitled) "u" EmptyString)
   = Ok buffer).
Proof.
  apply (C3_raw_buffer (serving pageTitled) "u" EmptyString pageTitled pageTitled);
    reflexivity.
Defined.

(** C3 as stated fails: the buffer of this page is two line feeds, which
    trimming would empty, and it is returned as the result. *)
Lemma C3_counterexample :
  ScrapeDocumentation maxDepth (serving pageEmptyPre) "u" EmptyString
  = ([Targeted], Ok (LF ++ LF)) /\
  TrimSpace (LF ++ LF) = EmptyString.
Proof. split; reflexivity. Qed.

(** C8, as the code has it.  Whatever the containers give, the harvester
    collects every [pre] and [code] element of the page that has a text
    and, when there is a symbol, mentions it, and writes the text of
    each, fenced, after the title lines and the text of the containers.
    It collects no other element: no [table]. *)
Theorem C8_code_harvest (doc : Document) (funcName : string) :
  firstPass maxDepth doc funcName =
    titleLines doc ++ containerText maxDepth doc funcName ++ harvest doc funcName
  /\
  harvest doc funcName =
    concatAll
      (map (fun e => fenced (Text e))
           (filter (harvestable funcName) (docFind doc codeSelector)))
  /\
  forall e,
    In e (filter (harvestable funcName) (docFind doc codeSelector)) <->
    In e (elementsOf doc) /\
    (NodeName e = "pre" \/ NodeName e = "code") /\
    Text e <> EmptyString /\
    (funcName = EmptyString \/ Contains (Text e) funcName = true).
Proof.
  split; [apply firstPass_parts | split; [reflexivity|]].
  intros e. rewrite filter_In. unfold docFind. rewrite filter_In.
  unfold harvestable. rewrite andb_true_iff, orb_true_iff, negb_true_iff.
  rewrite String.eqb_eq, String.eqb_neq.
  assert (matches codeSelector (selNode e) = true ->
          NodeName e = "pre" \/ NodeName e = "code") as Hm1.
  { destruct e as [[d|d|tag attr cs] fol]; cbn; try discriminate.
    rewrite orb_false_r, orb_true_iff, !String.eqb_eq. tauto. }
  assert (In e (elementsOf doc) ->
          NodeName e = "pre" \/ NodeName e = "code" ->
          matches codeSelector (selNode e) = true) as Hm2.
  { destruct e as [[d|d|tag attr cs] fol]; cbn.
    - intros _ [H|H]; discriminate H.
    - intros _ [H|H]; discriminate H.
    - intros _. rewrite orb_false_r, orb_true_iff, !String.eqb_eq. tauto. }
  tauto.
Qed.

(** C8 as stated fails: the table of this page mentions the symbol, the
    first pass collects nothing of it, and the call ends without it. *)
Lemma C8_counterexample :
  (exists t, In t (docFind pageTable [ByTag "table"]) /\
             Contains (Text t) "foo" = true) /\
  firstPass maxDepth pageTable "foo" = EmptyString /\
  ScrapeDocumentation maxDepth (serving pageTable) "u" "foo"
  = ([Targeted; Fallback], Err (FunctionNotFound "foo")).
Proof.
  split; [|split; reflexivity].
  eexists. split; [left; reflexivity | reflexivity].
Qed.

(** C9.  The first pass writes, before anything else and whatever the
    symbol, a line [# title] and a blank line for the title element.  So
    for a page whose title has a text, and no symbol, the call succeeds
    with the first-pass buffer, which holds that line, and does not fail
    with the error that no content was extracted, whatever the container
    selectors match. *)
Theorem C9_title_line (web : Web) (docURL funcName : string)
        (doc : Document) (t : Selection) :
  ParseRequestURI web docURL = true ->
  Visit web Targeted docURL = Some doc ->
  In t (docFind doc [ByTag "title"]) ->
  Text t <> EmptyString ->
  (exists rest, firstPass maxDepth doc funcName = titleLines doc ++ rest) /\
  Infix ("# " ++ Text t ++ LF ++ LF) (titleLines doc) /\
  ScrapeDocumentation maxDepth web docURL EmptyString
  = ([Targeted], Ok (firstPass maxDepth doc EmptyString)) /\
  Infix ("# " ++ Text t ++ LF ++ LF) (firstPass maxDepth doc EmptyString).
Proof.
  intros Hu Hv Ht _.
  assert (Infix ("# " ++ Text t ++ LF ++ LF) (titleLines doc)) as Hline.
  { unfold titleLines.
    apply (In_concatAll_Infix (fun t => "# " ++ Text t ++ LF ++ LF) t), Ht. }
  assert (Infix ("# " ++ Text t ++ LF ++ LF) (firstPass maxDepth doc EmptyString))
    as Hin.
  { rewrite firstPass_parts. apply Infix_app_l, Hline. }
  split; [|split; [exact Hline | split; [|exact Hin]]].
  - rewrite firstPass_parts. eexists. reflexivity.
  - unfold ScrapeDocumentation. rewrite Hu, Hv. cbn [negb needsSecondPass andb].
    unfold needsSecondPass. cbn [String.eqb negb andb]. unfold finish.
    assert (firstPass maxDepth doc EmptyString <> EmptyString) as Hne.
    { eapply Infix_nonempty; [exact Hin | discriminate]. }
    apply String.eqb_neq in Hne. rewrite Hne. reflexivity.
Qed.

Lemma C9_title_line_witness :
  (exists rest, firstPass maxDepth pageTitled "foo" = titleLines pageTitled ++ rest) /\
  Infix ("# " ++ "API" ++ LF ++ LF) (titleLines pageTitled) /\
  ScrapeDocumentation maxDepth (serving pageTitled) "u" EmptyString
  = ([Targeted], Ok (firstPass maxDepth pageTitled EmptyString)) /\
  Infix ("# " ++ "API" ++ LF ++ LF) (firstPass maxDepth pageTitled EmptyString).
Proof.
  apply (C9_title_line (serving pageTitled) "u" "foo" pageTitled
           (mkSelection (ElementNode "title" [] [TextNode "API"]) []));
    [reflexivity | reflexivity | left; reflexivity | discriminate].
Defined.

(** * Further properties of the code *)

(** ** pkg/typegen/scraper.go *)

Module ScraperMore.
Import GoStrings Dom Colly Scraper Outline Shapes.
Import StringFacts DomFacts LoopFacts ScraperFacts.

Lemma filter_all {A : Type} (p : A -> bool) (l : list A) :
  (forall x, In x l -> p x = true) -> filter p l = l.
Proof.
  induction l as [|x l IH]; intros H; cbn [filter]; [reflexivity|].
  rewrite (H x (or_introl eq_refl)), IH; [reflexivity|].
  intros y Hy. apply H. right. exact Hy.
Qed.

Lemma filter_none {A : Type} (p : A -> bool) (l : list A) :
  (forall x, In x l -> p x = false) -> filter p l = [].
Proof.
  induction l as [|x l IH]; intros H; cbn [filter]; [reflexivity|].
  rewrite (H x (or_introl eq_refl)). apply IH.
  intros y Hy. apply H. right. exact Hy.
Qed.

(** The selector [*] finds every descendant. *)
Lemma Find_universal (s : Selection) :
  Find s [Universal] = descendants (selNode s).
Proof.
  unfold Find. apply filter_all. intros d Hd.
  apply descendants_isElement in Hd.
  destruct (selNode d); [discriminate Hd | discriminate Hd | reflexivity].
Qed.

(** A string that does not occur in a text occurs in no part of it. *)
Lemma Contains_false_part (part whole sub : string) :
  Infix part whole -> Contains whole sub = false -> Contains part sub = false.
Proof.
  intros Hp Hw. apply not_true_iff_false. intros H.
  apply Contains_true_iff in H.
  assert (Contains whole sub = true) as Hc
      by (apply Contains_true_iff; eapply Infix_trans; eauto).
  congruence.
Qed.

Lemma elementsOf_text_Infix (doc : Document) (e : Selection) :
  In e (elementsOf doc) -> exists n, In n doc /\ Infix (Text e) (nodeText n).
Proof.
  induction doc as [|c rest IH]; intros H; [destruct H|].
  apply In_elementsOf in H. destruct H as [[_ ->]|[H|H]].
  - exists c. split; [left; reflexivity | apply Infix_refl].
  - exists c. split; [left; reflexivity | apply descendant_text_Infix, H].
  - destruct (IH H) as (n & Hn & Hi). exists n. split; [right; exact Hn | exact Hi].
Qed.

(** A function container mentions the symbol. *)
Lemma isFunctionContainer_mentions (s : Selection) (funcName : string) :
  isFunctionContainer s funcName = true -> Contains (Text s) funcName = true.
Proof.
  unfold isFunctionContainer.
  destruct (Contains (Text s) funcName); [reflexivity | discriminate].
Qed.

(** For an element that is no function container, the loop over its
    descendants is all there is. *)
Lemma extractRelevantSection_below (limit : Z) (s : Selection) (funcName : string) :
  isFunctionContainer s funcName = false ->
  extractRelevantSection limit s funcName = sectionsBelow limit s funcName.
Proof.
  intros Hc. unfold extractRelevantSection. rewrite Hc, Find_universal.
  rewrite (fold_left_pointwise _
             (fun content child =>
                if yields limit funcName child
                then WriteString content
                       (extractFunctionSection limit child funcName 0 ++ LF ++ LF)
                else content)).
  - rewrite fold_append_if. apply append_nil_l.
  - intros c x. unfold yields.
    destruct (isFunctionContainer x funcName); cbn [andb]; [|reflexivity].
    destruct (negb (extractFunctionSection limit x funcName 0 =? EmptyString));
      [|reflexivity].
    flatten_writes. reflexivity.
Qed.

(** Callbacks that leave the builder alone on every element of the page
    leave it alone. *)
Lemma handleOnHTML_idle (doc : Document) (cbs : list htmlCallback) :
  (forall cc e content,
      In cc cbs -> In e (elementsOf doc) -> Function cc e content = content) ->
  forall content, handleOnHTML doc cbs content = content.
Proof.
  unfold handleOnHTML. induction cbs as [|cc cbs IH]; intros H content;
    cbn [fold_left]; [reflexivity|].
  assert (forall l, (forall e, In e l -> In e (elementsOf doc)) ->
                    forall c, fold_left (fun content e => Function cc e content) l c = c)
    as Hin.
  { induction l as [|e l IHl]; intros Hl c; cbn [fold_left]; [reflexivity|].
    rewrite (H cc e c (or_introl eq_refl) (Hl e (or_introl eq_refl))).
    apply IHl. intros x Hx. apply Hl. right. exact Hx. }
  rewrite Hin.
  - apply IH. intros cc' e c Hcc He. apply H; [right; exact Hcc | exact He].
  - intros e He. unfold docFind in He. apply filter_In in He. tauto.
Qed.



Lemma relevantAttrs_names_iff (s : Selection) (funcName : string) :
  existsb (fun attr => attrNamesFunction attr funcName) (relevantAttrs s) = true <->
  exists key, In key namingAttributes /\
              (namesFunction (Attr s key) funcName \/
               namesFunction (ToLower (Attr s key)) funcName).
Proof.
  rewrite existsb_exists. unfold relevantAttrs, namingAttributes. split.
  - intros (a & Hin & Ha). apply attrNamesFunction_iff in Ha. cbn [In] in Hin.
    destruct Hin as [<-|[<-|[<-|[<-|[<-|[<-|[<-|[<-|[]]]]]]]]].
    + exists "id". cbn; auto.
    + exists "name". cbn; auto.
    + exists "data-function". cbn; auto.
    + exists "data-method". cbn; auto 6.
    + exists "id". cbn; auto.
    + exists "name". cbn; auto.
    + exists "data-function". cbn; auto.
    + exists "data-method". cbn; auto 6.
  - intros (key & Hk & Hn). cbn [In] in Hk.
    destruct Hn as [Hn|Hn]; apply attrNamesFunction_iff in Hn.
    + exists (Attr s key). split; [|exact Hn]. cbn [In].
      intuition (subst; auto).
    + exists (ToLower (Attr s key)). split; [|exact Hn]. cbn [In].
      intuition (subst; auto 10).
Qed.

Lemma exact_heading_iff (s : Selection) (funcName : string) :
  existsb (fun heading => TrimSpace (Text heading) =? funcName)
          (Find s headingSelector) = true <->
  exists h, In h (descendants (selNode s)) /\
            isHeadingElement h = true /\
            TrimSpace (Text h) = funcName.
Proof.
  rewrite existsb_exists. split.
  - intros (h & Hin & Hp). apply In_Find in Hin. destruct Hin as [Hd Hm].
    exists h. repeat split; auto.
    + rewrite <- matches_headingSelector; [exact Hm|].
      eapply descendants_isElement; eauto.
    + now apply String.eqb_eq.
  - intros (h & Hd & Hh & Ht). exists h. split.
    + apply In_Find. split; [exact Hd|].
      rewrite matches_headingSelector; [exact Hh|].
      eapply descendants_isElement; eauto.
    + now apply String.eqb_eq.
Qed.

End ScraperMore.

Import GoStrings Dom Colly Scraper Outline Shapes Samples.
Import StringFacts DomFacts LoopFacts ScraperFacts ScraperMore.

(** A successful call never returns the empty string, and it has visited
    the page once or twice. *)
Theorem scrape_success_not_empty (web : Web) (docURL funcName content : string) :
  snd (ScrapeDocumentation maxDepth web docURL funcName) = Ok content ->
  content <> EmptyString /\
  (fst (ScrapeDocumentation maxDepth web docURL funcName) = [Targeted] \/
   fst (ScrapeDocumentation maxDepth web docURL funcName) = [Targeted; Fallback]).
Proof.
  unfold ScrapeDocumentation.
  destruct (negb (ParseRequestURI web docURL)); [discriminate|].
  destruct (Visit web Targeted docURL) as [doc|]; [|discriminate].
  assert (forall r, finish funcName r = Ok content -> content <> EmptyString) as Hf.
  { intros r. unfold finish. destruct (String.eqb_spec r EmptyString) as [->|Hr].
    - destruct (negb (funcName =? EmptyString)); discriminate.
    - intros H. inversion H. subst. exact Hr. }
  destruct (needsSecondPass funcName (firstPass maxDepth doc funcName)).
  - destruct (Visit web Fallback docURL) as [doc2|]; [|discriminate].
    cbn [fst snd]. intros H. split; [eapply Hf; eauto | right; reflexivity].
  - cbn [fst snd]. intros H. split; [eapply Hf; eauto | left; reflexivity].
Qed.

Lemma scrape_success_not_empty_witness :
  ("# API" ++ LF ++ LF) <> EmptyString /\
  (fst (ScrapeDocumentation maxDepth (serving pageTitled) "u" EmptyString) = [Targeted] \/
   fst (ScrapeDocumentation maxDepth (serving pageTitled) "u" EmptyString)
   = [Targeted; Fallback]).
Proof.
  apply (scrape_success_not_empty (serving pageTitled) "u" EmptyString).
  reflexivity.
Defined.

(** Each error tells where the call stopped.  An invalid URL is refused
    before any visit; a failed first visit is not followed by a second
    one; the second visit is made for a symbol only; a function is
    reported as not found only for the symbol asked for, and only after
    both passes; the error that no content was extracted is given only
    when there is no symbol, after the one pass. *)
Theorem scrape_error_origin (web : Web) (docURL funcName : string)
        (e : scrapeError) :
  snd (ScrapeDocumentation maxDepth web docURL funcName) = Err e ->
  match e with
  | InvalidURL =>
      ParseRequestURI web docURL = false /\
      fst (ScrapeDocumentation maxDepth web docURL funcName) = []
  | VisitError =>
      ParseRequestURI web docURL = true /\
      Visit web Targeted docURL = None /\
      fst (ScrapeDocumentation maxDepth web docURL funcName) = [Targeted]
  | SecondVisitError =>
      funcName <> EmptyString /\
      Visit web Fallback docURL = None /\
      fst (ScrapeDocumentation maxDepth web docURL funcName) = [Targeted; Fallback]
  | FunctionNotFound g =>
      g = funcName /\ funcName <> EmptyString /\
      fst (ScrapeDocumentation maxDepth web docURL funcName) = [Targeted; Fallback]
  | NoContentExtracted =>
      funcName = EmptyString /\
      fst (ScrapeDocumentation maxDepth web docURL funcName) = [Targeted]
  end.
Proof.
  unfold ScrapeDocumentation, needsSecondPass, finish.
  destruct (ParseRequestURI web docURL); cbn [negb].
  2:{ intros H. inversion H. subst. cbn. auto. }
  destruct (Visit web Targeted docURL) as [doc|].
  2:{ intros H. inversion H. subst. cbn. auto. }
  destruct (String.eqb_spec funcName EmptyString) as [->|Hne]; cbn [negb andb].
  - cbn [fst snd].
    destruct (firstPass maxDepth doc EmptyString =? EmptyString);
      intros H; inversion H; subst. cbn. auto.
  - destruct (Contains (firstPass maxDepth doc funcName) funcName) eqn:Hc;
      cbn [negb].
    + cbn [fst snd].
      destruct (String.eqb_spec (firstPass maxDepth doc funcName) EmptyString)
        as [Hr|Hr]; [|discriminate].
      rewrite Hr in Hc. apply Contains_nil_l in Hc. contradiction.
    + destruct (Visit web Fallback docURL) as [doc2|]; cbn [fst snd].
      * destruct (secondPass maxDepth doc2 funcName =? EmptyString);
          intros H; inversion H; subst. auto.
      * intros H. inversion H. subst. auto.
Qed.

Lemma scrape_error_origin_witness :
  "foo" = "foo" /\ "foo" <> EmptyString /\
  fst (ScrapeDocumentation maxDepth (serving pageTable) "u" "foo")
  = [Targeted; Fallback].
Proof.
  apply (scrape_error_origin (serving pageTable) "u" "foo" (FunctionNotFound "foo")).
  reflexivity.
Defined.

(** When a symbol is asked for and the call succeeds without a second
    pass, the text returned contains the symbol. *)
Theorem first_pass_success_mentions (web : Web) (docURL funcName content : string) :
  funcName <> EmptyString ->
  fst (ScrapeDocumentation maxDepth web docURL funcName) = [Targeted] ->
  snd (ScrapeDocumentation maxDepth web docURL funcName) = Ok content ->
  Contains content funcName = true.
Proof.
  intros Hne. unfold ScrapeDocumentation, needsSecondPass, finish.
  destruct (negb (ParseRequestURI web docURL)); [discriminate|].
  destruct (Visit web Targeted docURL) as [doc|]; [|discriminate].
  apply String.eqb_neq in Hne. rewrite Hne. cbn [negb andb].
  destruct (Contains (firstPass maxDepth doc funcName) funcName) eqn:Hc;
    cbn [negb].
  - cbn [fst snd]. intros _.
    destruct (firstPass maxDepth doc funcName =? EmptyString); [discriminate|].
    intros H. inversion H. subst. exact Hc.
  - destruct (Visit web Fallback docURL); cbn [fst]; discriminate.
Qed.

Lemma first_pass_success_mentions_witness :
  Contains (firstPass maxDepth pageDocs "foo") "foo" = true.
Proof.
  apply (first_pass_success_mentions (serving pageDocs) "u" "foo");
    [discriminate | reflexivity | reflexivity].
Defined.

(** On an element whose text does not contain the symbol,
    [extractRelevantSection] returns the empty string: neither the
    element nor anything below it is a function container. *)
Theorem relevant_section_needs_mention (s : Selection) (funcName : string) :
  Contains (Text s) funcName = false ->
  extractRelevantSection maxDepth s funcName = EmptyString.
Proof.
  intros Hc.
  assert (isFunctionContainer s funcName = false) as Hs
      by (unfold isFunctionContainer; now rewrite Hc).
  rewrite (extractRelevantSection_below maxDepth s funcName Hs).
  unfold sectionsBelow. rewrite filter_none; [reflexivity|].
  intros d Hd. unfold yields.
  assert (isFunctionContainer d funcName = false) as ->; [|reflexivity].
  unfold isFunctionContainer.
  rewrite (Contains_false_part (Text d) (Text s) funcName); [reflexivity| |exact Hc].
  apply descendant_text_Infix, Hd.
Qed.

Lemma relevant_section_needs_mention_witness :
  extractRelevantSection maxDepth divWithCode "bar" = EmptyString.
Proof. apply (relevant_section_needs_mention divWithCode "bar"). reflexivity. Defined.

(** For an element that is no function container itself, the result is
    made of the sections of the function containers below it, in document
    order, each followed by a blank line; it is empty exactly when none
    below it yields a section. *)
Theorem relevant_section_of_descendants (s : Selection) (funcName : string) :
  isFunctionContainer s funcName = false ->
  extractRelevantSection maxDepth s funcName =
    concatAll
      (map (fun c => extractFunctionSection maxDepth c funcName 0 ++ LF ++ LF)
           (filter (fun c => isFunctionContainer c funcName
                             && negb (extractFunctionSection maxDepth c funcName 0
                                      =? EmptyString))
                   (descendants (selNode s)))) /\
  (extractRelevantSection maxDepth s funcName = EmptyString <->
   forall c, In c (descendants (selNode s)) ->
             isFunctionContainer c funcName = true ->
             extractFunctionSection maxDepth c funcName 0 = EmptyString).
Proof.
  intros Hs. rewrite (extractRelevantSection_below maxDepth s funcName Hs).
  split; [reflexivity|]. unfold sectionsBelow, yields.
  induction (descendants (selNode s)) as [|c l IH]; cbn [filter].
  - split; [intros _ c [] | reflexivity].
  - destruct (isFunctionContainer c funcName) eqn:Hc; cbn [andb].
    + destruct (String.eqb_spec (extractFunctionSection maxDepth c funcName 0)
                                EmptyString) as [He|He]; cbn [negb].
      * rewrite IH. split.
        -- intros H x [<-|Hx] Hx'; auto.
        -- intros H x Hx. apply H. right. exact Hx.
      * cbn [map concatAll]. split.
        -- intros H. apply append_eq_nil in H. destruct H as [H _].
           apply append_eq_nil in H. destruct H as [H _]. contradiction.
        -- intros H. exfalso. apply He. apply H; [left; reflexivity | exact Hc].
    + rewrite IH. split.
      * intros H x [<-|Hx] Hx'; [congruence | auto].
      * intros H x Hx. apply H. right. exact Hx.
Qed.

Lemma relevant_section_of_descendants_witness :
  extractRelevantSection maxDepth divMentioning "foo" =
    concatAll
      (map (fun c => extractFunctionSection maxDepth c "foo" 0 ++ LF ++ LF)
           (filter (fun c => isFunctionContainer c "foo"
                             && negb (extractFunctionSection maxDepth c "foo" 0
                                      =? EmptyString))
                   (descendants (selNode divMentioning)))) /\
  (extractRelevantSection maxDepth divMentioning "foo" = EmptyString <->
   forall c, In c (descendants (selNode divMentioning)) ->
             isFunctionContainer c "foo" = true ->
             extractFunctionSection maxDepth c "foo" 0 = EmptyString).
Proof.
  apply (relevant_section_of_descendants divMentioning "foo"). reflexivity.
Defined.

(** In the sample, the block is no container, and the heading below it
    is: its section is what is extracted. *)
Example divMentioning_section :
  extractRelevantSection maxDepth divMentioning "foo"
  = "<h3>foo and bar</h3>" ++ LF ++ "see foo" ++ LF ++ LF ++ LF.
Proof. reflexivity. Qed.

(** The three ways to be a function container, and no other: the text
    contains the symbol, and the element is a heading, or one of its
    naming attributes is the symbol or a decorated form of it, or it is a
    [section], [div] or [article] with a heading below it whose trimmed
    text is the symbol. *)
Theorem function_container_iff (s : Selection) (funcName : string) :
  isFunctionContainer s funcName = true <->
  Contains (Text s) funcName = true /\
  (isHeadingElement s = true \/
   (exists key, In key namingAttributes /\
                (namesFunction (Attr s key) funcName \/
                 namesFunction (ToLower (Attr s key)) funcName)) \/
   ((NodeName s = "section" \/ NodeName s = "div" \/ NodeName s = "article") /\
    exists h, In h (descendants (selNode s)) /\
              isHeadingElement h = true /\
              TrimSpace (Text h) = funcName)).
Proof.
  rewrite <- relevantAttrs_names_iff, <- exact_heading_iff.
  unfold isFunctionContainer.
  destruct (Contains (Text s) funcName); cbn [negb].
  2:{ split; [discriminate | intros [H _]; discriminate H]. }
  destruct (isHeadingElement s).
  { split; auto. }
  destruct (existsb (fun attr => attrNamesFunction attr funcName) (relevantAttrs s)).
  { split; auto. }
  rewrite fold_flag. cbn [orb].
  assert ((NodeName s =? "section") || (NodeName s =? "div")
          || (NodeName s =? "article") = true <->
          NodeName s = "section" \/ NodeName s = "div" \/ NodeName s = "article")
    as Hn.
  { rewrite !orb_true_iff, !String.eqb_eq. tauto. }
  destruct ((NodeName s =? "section") || (NodeName s =? "div")
            || (NodeName s =? "article")).
  - split.
    + intros H. split; [reflexivity|]. right; right. split; [|exact H].
      apply Hn. reflexivity.
    + intros [_ [H|[H|[_ H]]]]; [discriminate H | discriminate H | exact H].
  - split; [discriminate|].
    intros [_ [H|[H|[H _]]]]; [discriminate H | discriminate H |].
    apply Hn in H. discriminate H.
Qed.

(** A heading has a level from 1 to 6, and anything else has level 0. *)
Theorem heading_levels (s : Selection) :
  (isHeadingElement s = true <->
   (1 <= getHeadingLevel s <= 6)%Z) /\
  (isHeadingElement s = false <-> getHeadingLevel s = 0%Z).
Proof.
  unfold isHeadingElement, getHeadingLevel.
  destruct (NodeName s =? "h1"); [cbn; split; split; intros; (lia || discriminate || reflexivity)|].
  destruct (NodeName s =? "h2"); [cbn; split; split; intros; (lia || discriminate || reflexivity)|].
  destruct (NodeName s =? "h3"); [cbn; split; split; intros; (lia || discriminate || reflexivity)|].
  destruct (NodeName s =? "h4"); [cbn; split; split; intros; (lia || discriminate || reflexivity)|].
  destruct (NodeName s =? "h5"); [cbn; split; split; intros; (lia || discriminate || reflexivity)|].
  destruct (NodeName s =? "h6"); cbn; split; split; intros;
    (lia || discriminate || reflexivity).
Qed.


(** When the text of the first page does not contain the symbol, neither
    in an element nor in the title lines, and the text of the page of the
    second visit does not contain it either, the call fails with the
    error that the function was not found, after both passes. *)
Theorem absent_symbol_not_found (web : Web) (docURL funcName : string)
        (doc doc2 : Document) :
  funcName <> EmptyString ->
  ParseRequestURI web docURL = true ->
  Visit web Targeted docURL = Some doc ->
  Visit web Fallback docURL = Some doc2 ->
  (forall n, In n doc -> Contains (nodeText n) funcName = false) ->
  Contains (titleLines doc) funcName = false ->
  (forall n, In n doc2 -> Contains (nodeText n) funcName = false) ->
  ScrapeDocumentation maxDepth web docURL funcName
  = ([Targeted; Fallback], Err (FunctionNotFound funcName)).
Proof.
  intros Hne Hu Hv Hv2 Hdoc Htitle Hdoc2.
  assert (forall d, (forall n, In n d -> Contains (nodeText n) funcName = false) ->
                    forall e, In e (elementsOf d) ->
                              Contains (Text e) funcName = false) as Hel.
  { intros d Hd e He. apply elementsOf_text_Infix in He.
    destruct He as (n & Hn & Hi).
    eapply Contains_false_part; [exact Hi | apply Hd, Hn]. }
  assert (firstPass maxDepth doc funcName = titleLines doc) as H1.
  { rewrite firstPass_parts.
    assert (containerText maxDepth doc funcName = EmptyString) as ->.
    { unfold containerText. apply handleOnHTML_idle.
      intros cc e content Hcc He. apply in_map_iff in Hcc.
      destruct Hcc as (sel & <- & _). cbn [Function]. unfold onContainer.
      rewrite (Hel doc Hdoc e He).
      assert ((funcName =? EmptyString) = false) as ->
          by (apply String.eqb_neq; exact Hne).
      reflexivity. }
    assert (harvest doc funcName = EmptyString) as ->.
    { unfold harvest. rewrite filter_none; [reflexivity|].
      intros e He. unfold docFind in He. apply filter_In in He.
      destruct He as [He _]. unfold harvestable.
      rewrite (Hel doc Hdoc e He). apply String.eqb_neq in Hne. now rewrite Hne. }
    now rewrite append_nil_l, append_nil_r. }
  assert (secondPass maxDepth doc2 funcName = EmptyString) as H2.
  { unfold secondPass. apply handleOnHTML_idle.
    intros cc e content [<-|[]] He. cbn [Function]. unfold onAny.
    now rewrite (Hel doc2 Hdoc2 e He). }
  unfold ScrapeDocumentation, needsSecondPass, finish.
  rewrite Hu, Hv, Hv2, H1, Htitle, H2. cbn [negb].
  apply String.eqb_neq in Hne. rewrite Hne. reflexivity.
Qed.

Lemma absent_symbol_not_found_witness :
  ScrapeDocumentation maxDepth (serving pageDocs) "u" "baz"
  = ([Targeted; Fallback], Err (FunctionNotFound "baz")).
Proof.
  apply (absent_symbol_not_found (serving pageDocs) "u" "baz" pageDocs pageDocs);
    try reflexivity; try discriminate;
    intros n [<-|[]]; reflexivity.
Defined.

(** ** pkg/typegen/cli.go and pkg/typegen/generator.go *)

Module TypeGenFacts.
Import GoStrings Dom TypeGen StringFacts.

Lemma lowerAscii_idem (c : ascii) : lowerAscii (lowerAscii c) = lowerAscii c.
Proof. destruct c as [[] [] [] [] [] [] [] []]; reflexivity. Qed.

Lemma ToLower_idem (s : string) : ToLower (ToLower s) = ToLower s.
Proof.
  induction s as [|c s IH]; cbn [ToLower]; [reflexivity|].
  now rewrite lowerAscii_idem, IH.
Qed.

(** Case analysis on every comparison of the string [x] in the goal. *)
Ltac string_cases x :=
  repeat match goal with
         | |- context [String.eqb x ?b] =>
             destruct (String.eqb_spec x b);
             [subst; try reflexivity; try contradiction; try congruence|]
         end;
  cbn [orb].

Definition noLeadingSpace (s : string) : Prop :=
  match s with
  | EmptyString => True
  | String c _ => isSpace c = false
  end.

Lemma TrimLeft_noLeadingSpace (s : string) : noLeadingSpace (TrimLeft s).
Proof.
  induction s as [|c s IH]; cbn [TrimLeft]; [exact I|].
  destruct (isSpace c) eqn:Hc; [exact IH | exact Hc].
Qed.

Lemma TrimLeft_fixed (s : string) : noLeadingSpace s -> TrimLeft s = s.
Proof. destruct s as [|c s]; cbn; [reflexivity | now intros ->]. Qed.

Lemma TrimRight_noLeadingSpace (s : string) :
  noLeadingSpace s -> noLeadingSpace (TrimRight s).
Proof.
  destruct s as [|c s]; cbn [TrimRight noLeadingSpace]; [auto|].
  intros Hc. destruct (TrimRight s); [rewrite Hc|]; exact Hc.
Qed.

Lemma TrimRight_idem (s : string) : TrimRight (TrimRight s) = TrimRight s.
Proof.
  induction s as [|c s IH]; cbn [TrimRight]; [reflexivity|].
  destruct (TrimRight s) as [|d r] eqn:Hr.
  - destruct (isSpace c) eqn:Hc; cbn [TrimRight]; [reflexivity|].
    now rewrite Hc.
  - cbn [TrimRight]. cbn [TrimRight] in IH. now rewrite IH.
Qed.

Definition allSpaces (w : string) : Prop := TrimRight w = EmptyString.

Lemma TrimRight_app_spaces (s w : string) :
  allSpaces w -> TrimRight (s ++ w) = TrimRight s.
Proof.
  intros Hw. induction s as [|c s IH]; cbn [append TrimRight]; [exact Hw|].
  now rewrite IH.
Qed.

Lemma TrimSpace_idem (s : string) : TrimSpace (TrimSpace s) = TrimSpace s.
Proof.
  unfold TrimSpace.
  rewrite (TrimLeft_fixed (TrimRight (TrimLeft s))).
  - apply TrimRight_idem.
  - apply TrimRight_noLeadingSpace, TrimLeft_noLeadingSpace.
Qed.

(** Trimming undoes the blank line written after a trimmed text. *)
Lemma TrimSpace_blank_line (s : string) :
  TrimSpace (TrimSpace s ++ LF ++ LF) = TrimSpace s.
Proof.
  assert (noLeadingSpace (TrimSpace s)) as Hn
      by (apply TrimRight_noLeadingSpace, TrimLeft_noLeadingSpace).
  assert (TrimRight (TrimSpace s) = TrimSpace s) as Hr by apply TrimRight_idem.
  destruct (TrimSpace s) as [|c r] eqn:Ht; [reflexivity|].
  unfold TrimSpace at 1. rewrite TrimLeft_fixed.
  - rewrite TrimRight_app_spaces; [exact Hr | reflexivity].
  - exact Hn.
Qed.

End TypeGenFacts.

Import TypeGen TypeGenFacts.

(** Normalising a language is idempotent, does not depend on the case of
    its letters, and gives a name in lower case. *)
Theorem normalizeLanguage_idempotent (lang : string) :
  normalizeLanguage (normalizeLanguage lang) = normalizeLanguage lang /\
  normalizeLanguage (ToLower lang) = normalizeLanguage lang /\
  ToLower (normalizeLanguage lang) = normalizeLanguage lang.
Proof.
  split; [|split].
  - unfold normalizeLanguage. cbv zeta.
    generalize (ToLower_idem lang). generalize (ToLower lang) as x.
    intros x Hx. unfold oneOf, memStr. cbn [existsb].
    string_cases x. rewrite Hx. string_cases x. reflexivity.
  - unfold normalizeLanguage. cbv zeta. now rewrite ToLower_idem.
  - unfold normalizeLanguage. cbv zeta.
    generalize (ToLower_idem lang). generalize (ToLower lang) as x.
    intros x Hx. unfold oneOf, memStr. cbn [existsb].
    string_cases x. exact Hx.
Qed.

Lemma getLanguageName_normalized (x : string) :
  x <> "c#" -> x <> "js" ->
  getLanguageName
    (if oneOf x ["ts"; "typescript"] then "typescript"
     else if oneOf x ["go"; "golang"] then "go"
     else if oneOf x ["py"; "python"] then "python"
     else if oneOf x ["rs"; "rust"] then "rust"
     else if oneOf x ["js"; "javascript"] then "javascript"
     else if oneOf x ["cs"; "csharp"; "c#"] then "csharp"
     else if oneOf x ["kt"; "kotlin"] then "kotlin"
     else x)
  = getLanguageName x.
Proof.
  intros H1 H2. unfold getLanguageName, oneOf, memStr. cbn [existsb].
  string_cases x. string_cases x. reflexivity.
Qed.

Lemma languageInstructions_normalized (x : string) :
  x <> "c#" ->
  languageInstructions
    (if oneOf x ["ts"; "typescript"] then "typescript"
     else if oneOf x ["go"; "golang"] then "go"
     else if oneOf x ["py"; "python"] then "python"
     else if oneOf x ["rs"; "rust"] then "rust"
     else if oneOf x ["js"; "javascript"] then "javascript"
     else if oneOf x ["cs"; "csharp"; "c#"] then "csharp"
     else if oneOf x ["kt"; "kotlin"] then "kotlin"
     else x)
  = languageInstructions x.
Proof.
  intros H1. unfold languageInstructions, oneOf, memStr. cbn [existsb].
  string_cases x. string_cases x. reflexivity.
Qed.

(** Normalising a language loses nothing the tables know.  Unless the
    language is written [c#] or [js], the file extension and the prompt
    are the same for the normalised name as for the name in lower case. *)
Theorem normalisation_keeps_language (lang docContent funcName : string) :
  ToLower lang <> "c#" ->
  ToLower lang <> "js" ->
  getFileExtension (normalizeLanguage lang) = getFileExtension (ToLower lang) /\
  buildPrompt docContent (normalizeLanguage lang) funcName
  = buildPrompt docContent (ToLower lang) funcName.
Proof.
  unfold normalizeLanguage. cbv zeta. generalize (ToLower lang) as x.
  intros x H1 H2. split.
  - unfold getFileExtension, oneOf, memStr. cbn [existsb].
    string_cases x. string_cases x. reflexivity.
  - unfold buildPrompt.
    now rewrite (getLanguageName_normalized x H1 H2),
                (languageInstructions_normalized x H1).
Qed.

Lemma normalisation_keeps_language_witness :
  getFileExtension (normalizeLanguage "Golang") = getFileExtension (ToLower "Golang") /\
  buildPrompt "doc" (normalizeLanguage "Golang") "f"
  = buildPrompt "doc" (ToLower "Golang") "f".
Proof.
  apply (normalisation_keeps_language "Golang" "doc" "f"); discriminate.
Defined.

(** The two spellings left out: [c#] gets its extension by being
    normalised, and [js] is normalised to a name the generator has no
    display name for. *)
Example csharp_extension :
  getFileExtension "c#" = ".txt" /\ getFileExtension (normalizeLanguage "C#") = ".cs".
Proof. split; reflexivity. Qed.

(** The prompt ends with the line that announces the documentation and
    then the documentation, unchanged; what comes before does not depend
    on the documentation; and a symbol that is asked for is named in it
    between quotes. *)
Theorem buildPrompt_documentation (docContent language funcName : string) :
  buildPrompt docContent language funcName
  = buildPrompt EmptyString language funcName ++ docContent /\
  (exists instructions,
      buildPrompt EmptyString language funcName
      = instructions ++ LF ++ LF ++ "API DOCUMENTATION:" ++ LF) /\
  (funcName <> EmptyString ->
   Infix ("named '" ++ funcName ++ "' ")
         (buildPrompt docContent language funcName)).
Proof.
  unfold buildPrompt. split; [|split].
  - destruct (negb (funcName =? EmptyString)); flatten_writes; reflexivity.
  - destruct (negb (funcName =? EmptyString)); flatten_writes;
      eexists; rewrite <- !append_assoc; reflexivity.
  - intros Hne. apply String.eqb_neq in Hne. rewrite Hne. cbn [negb].
    unfold WriteString. do 8 apply Infix_app_l. apply Infix_app_r.
    exists "generate accurate and complete type definitions for the function or method ".
    exists EmptyString. rewrite append_nil_r. reflexivity.
Qed.

Import MoreSamples.

(** Whatever the expressions match, what [extractOutput] returns has no
    white space at its start or at its end: trimming it again changes
    nothing. *)
Theorem extractOutput_trimmed (MustCompile : string -> option Regexp)
        (text language out : string) :
  extractOutput MustCompile text language = Some out ->
  TrimSpace out = out.
Proof.
  unfold extractOutput.
  destruct (MustCompile _) as [re|]; [|discriminate].
  destruct (FindAllStringSubmatch re text) as [|m ms].
  - destruct (MustCompile _) as [headers|]; [|discriminate].
    destruct (MustCompile _) as [bullets|]; [|discriminate].
    intros H. inversion H. apply TrimSpace_idem.
  - intros H. inversion H. apply TrimSpace_idem.
Qed.

Lemma extractOutput_trimmed_witness :
  TrimSpace "type T = number" = "type T = number".
Proof.
  apply (extractOutput_trimmed (fun _ => Some noMatchRegexp)
           ("  type T = number" ++ LF) "typescript").
  reflexivity.
Defined.

(** When the expression for code blocks, built from the marker of the
    language, finds one block, the result is the body of the block,
    trimmed: the blank line written after it is trimmed away. *)
Theorem extractOutput_single_block (MustCompile : string -> option Regexp)
        (re : Regexp) (text language whole body : string) :
  MustCompile ("```(?:" ++ getLanguageMarker language ++ ")?([\s\S]*?)```")
  = Some re ->
  FindAllStringSubmatch re text = [[whole; body]] ->
  extractOutput MustCompile text language = Some (TrimSpace body).
Proof.
  intros Hre Hm. unfold extractOutput. rewrite Hre, Hm.
  cbn [fold_left writeMatch]. unfold WriteString. rewrite append_nil_l.
  now rewrite TrimSpace_blank_line.
Qed.

Lemma extractOutput_single_block_witness :
  extractOutput (fun _ => Some (oneBlockRegexp (LF ++ "type T = number" ++ LF)))
                "text" "ts"
  = Some (TrimSpace (LF ++ "type T = number" ++ LF)).
Proof.
  apply (extractOutput_single_block
           (fun _ => Some (oneBlockRegexp (LF ++ "type T = number" ++ LF)))
           (oneBlockRegexp (LF ++ "type T = number" ++ LF))
           "text" "ts" "text");
    reflexivity.
Defined.

(** ** pkg/common: the environment *)

Module CommonFacts.
Import GoStrings Dom Common StringFacts.

Lemma removeCR_step (c : ascii) (s : string) :
  ReplaceAll (String c s) CR EmptyString =
    if ascii_dec (ascii_of_nat 13) c then ReplaceAll s CR EmptyString
    else String c (ReplaceAll s CR EmptyString).
Proof.
  unfold ReplaceAll. cbn [replaceFrom]. unfold CR at 1. cbn [prefix].
  destruct (ascii_dec (ascii_of_nat 13) c); [|reflexivity].
  destruct s; reflexivity.
Qed.

Lemma Contains_CR_step (c : ascii) (s : string) :
  Contains (String c s) CR =
    if ascii_dec (ascii_of_nat 13) c then true else Contains s CR.
Proof.
  cbn [Contains]. unfold CR at 1. cbn [prefix].
  destruct (ascii_dec (ascii_of_nat 13) c); [|reflexivity].
  destruct s; reflexivity.
Qed.

(** No carriage return is left. *)
Lemma removeCR_clean (s : string) :
  Contains (ReplaceAll s CR EmptyString) CR = false.
Proof.
  induction s as [|c s IH]; [reflexivity|].
  rewrite removeCR_step. destruct (ascii_dec (ascii_of_nat 13) c) as [E|E];
    [exact IH|].
  rewrite Contains_CR_step. destruct (ascii_dec (ascii_of_nat 13) c);
    [contradiction | exact IH].
Qed.

(** A value without a carriage return is left as it is. *)
Lemma removeCR_fixed (s : string) :
  Contains s CR = false -> ReplaceAll s CR EmptyString = s.
Proof.
  induction s as [|c s IH]; [reflexivity|].
  rewrite Contains_CR_step, removeCR_step.
  destruct (ascii_dec (ascii_of_nat 13) c); [discriminate|].
  intros H. now rewrite IH.
Qed.

Lemma removeCR_idem (s : string) :
  ReplaceAll (ReplaceAll s CR EmptyString) CR EmptyString
  = ReplaceAll s CR EmptyString.
Proof. apply removeCR_fixed, removeCR_clean. Qed.

(** One round of the loop of [CleanWindowsLineEndings]. *)
Lemma clean_step (env : Env) (key k : string) :
  (let value := Getenv env key in
   if negb (value =? EmptyString) then
     let cleanValue := ReplaceAll value CR EmptyString in
     if negb (cleanValue =? value) then Setenv env key cleanValue else env
   else env) k
  = if k =? key then ReplaceAll (env k) CR EmptyString else env k.
Proof.
  cbv zeta. unfold Getenv.
  destruct (String.eqb_spec k key) as [->|Hk].
  - destruct (String.eqb_spec (env key) EmptyString) as [He|He]; cbn [negb].
    + now rewrite He.
    + destruct (String.eqb_spec (ReplaceAll (env key) CR EmptyString) (env key))
        as [Hc|Hc]; cbn [negb].
      * now rewrite Hc.
      * unfold Setenv. now rewrite String.eqb_refl.
  - destruct (negb (env key =? EmptyString)); [|reflexivity].
    destruct (negb (ReplaceAll (env key) CR EmptyString =? env key));
      [|reflexivity].
    unfold Setenv. apply String.eqb_neq in Hk. now rewrite Hk.
Qed.

Lemma clean_keys (keys : list string) :
  forall (env : Env) (k : string),
    fold_left
      (fun env key =>
         let value := Getenv env key in
         if negb (value =? EmptyString) then
           let cleanValue := ReplaceAll value CR EmptyString in
           if negb (cleanValue =? value) then Setenv env key cleanValue else env
         else env)
      keys env k
    = if memStr k keys then ReplaceAll (env k) CR EmptyString else env k.
Proof.
  induction keys as [|key keys IH]; intros env k; cbn [fold_left]; [reflexivity|].
  rewrite IH, !clean_step. unfold memStr. cbn [existsb].
  destruct (k =? key); cbn [orb].
  - rewrite removeCR_idem. destruct (existsb (String.eqb k) keys); reflexivity.
  - reflexivity.
Qed.

End CommonFacts.

Import Common CommonFacts.

(** After [CleanWindowsLineEndings], each of the six variables it lists
    has its old value with every carriage return removed, so that none is
    left in it, and every other variable has its old value; a variable
    that was not set is still not set. *)
Theorem clean_environment (env : Env) (key : string) :
  Getenv (CleanWindowsLineEndings env) key
  = (if memStr key keysToClean
     then ReplaceAll (Getenv env key) CR EmptyString
     else Getenv env key) /\
  (In key keysToClean ->
   Contains (Getenv (CleanWindowsLineEndings env) key) CR = false) /\
  (~ In key keysToClean ->
   Getenv (CleanWindowsLineEndings env) key = Getenv env key) /\
  (Getenv env key = EmptyString ->
   Getenv (CleanWindowsLineEndings env) key = EmptyString).
Proof.
  assert (Getenv (CleanWindowsLineEndings env) key
          = (if memStr key keysToClean
             then ReplaceAll (Getenv env key) CR EmptyString
             else Getenv env key)) as H
      by (unfold CleanWindowsLineEndings, Getenv; apply clean_keys).
  assert (memStr key keysToClean = true <-> In key keysToClean) as Hm.
  { unfold memStr. rewrite existsb_exists. split.
    - intros (x & Hx & He). apply String.eqb_eq in He. now subst.
    - intros Hin. exists key. split; [exact Hin | apply String.eqb_refl]. }
  split; [exact H | split; [|split]].
  - intros Hin. rewrite H. apply Hm in Hin. rewrite Hin. apply removeCR_clean.
  - intros Hin. rewrite H. destruct (memStr key keysToClean); [|reflexivity].
    exfalso. apply Hin, Hm. reflexivity.
  - intros He. rewrite H, He. destruct (memStr key keysToClean); reflexivity.
Qed.

(** Cleaning the environment twice is cleaning it once. *)
Theorem clean_environment_idempotent (env : Env) (key : string) :
  Getenv (CleanWindowsLineEndings (CleanWindowsLineEndings env)) key
  = Getenv (CleanWindowsLineEndings env) key.
Proof.
  unfold CleanWindowsLineEndings, Getenv. rewrite !clean_keys.
  destruct (memStr key keysToClean); [|reflexivity].
  apply removeCR_idem.
Qed.

(** In the sample, the language loses its carriage return and the
    editor, which is not in the list, keeps it. *)
Example windowsEnv_cleaned :
  Getenv (CleanWindowsLineEndings windowsEnv) "DEFAULT_LANG" = "go" /\
  Getenv (CleanWindowsLineEndings windowsEnv) "EDITOR" = "vi" ++ CR.
Proof. split; reflexivity. Qed.

(** The second pass reaches an element only through an element with a
    tag of [contentElements] whose text contains the symbol: when the
    page has no such element, the second pass writes nothing, even if a
    heading of the page names the symbol. *)
Theorem second_pass_needs_content_element (doc : Document) (funcName : string) :
  (forall e, In e (elementsOf doc) ->
             isContentElement (NodeName e) = true ->
             Contains (Text e) funcName = false) ->
  secondPass maxDepth doc funcName = EmptyString.
Proof.
  intros H. unfold secondPass. apply handleOnHTML_idle.
  intros cc e content [<-|[]] He. cbn [Function]. unfold onAny.
  destruct (Contains (Text e) funcName) eqn:Hc; [|reflexivity].
  destruct (isContentElement (NodeName e)) eqn:Hn; [|reflexivity].
  rewrite (H e He Hn) in Hc. discriminate Hc.
Qed.

Lemma second_pass_needs_content_element_witness :
  secondPass maxDepth pageBareHeading "foo" = EmptyString.
Proof.
  apply (second_pass_needs_content_element pageBareHeading "foo").
  intros e He. cbn in He.
  repeat (destruct He as [<-|He];
          [vm_compute; intros Hn; first [discriminate Hn | reflexivity]|]).
  destruct He.
Defined.

(** In that sample the heading names the symbol and the call does not
    find it. *)
Example bare_heading_not_found :
  ScrapeDocumentation maxDepth (serving pageBareHeading) "u" "foo"
  = ([Targeted; Fallback], Err (FunctionNotFound "foo")).
Proof. reflexivity. Qed.
